(** * Verification of the report status poll loop (ScanningScreen.tsx)
      and of the session/navigation persistence (AppContext.tsx).

    The poll loop of [ScanningScreen] is embedded as a small-step machine:
    the closure state of the effect ([isMounted], the refs, the [progress]
    state) together with the pending JS tasks (the [setTimeout] that will run
    [pollStatus], the awaited [getReportStatus] promise, the 500 ms cosmetic
    [setTimeout]) and the wall clock ([Date.now()]).  Observable effects
    (queries, toasts and calls of the context's [setCurrentScreen]) are
    appended to a log. *)

From Stdlib Require Import String Ascii List ZArith Bool Lia QArith Qround.
Import ListNotations.
Open Scope string_scope.
Open Scope list_scope.
Open Scope Z_scope.

(* ------------------------------------------------------------------ *)
(** ** Screens and strings *)

(** [Screen] of AppContext.tsx is a union of string literals; values read
    back from localStorage are cast to it unchecked, so it is a string. *)
Definition Screen := string.
Definition Tab := string.

Definition scr_splash : Screen := "splash".
Definition scr_onboarding : Screen := "onboarding".
Definition scr_login : Screen := "login".
Definition scr_signup : Screen := "signup".
Definition scr_home : Screen := "home".
Definition scr_scan_error : Screen := "scan-error".
Definition scr_report_result : Screen := "report-result".

(** [String.prototype.toLowerCase] on the ASCII strings of this model. *)
Definition ascii_lower (c : ascii) : ascii :=
  let n := nat_of_ascii c in
  if (Nat.leb 65 n && Nat.leb n 90)%bool then ascii_of_nat (n + 32) else c.

Fixpoint toLowerCase (s : string) : string :=
  match s with
  | EmptyString => EmptyString
  | String c s' => String (ascii_lower c) (toLowerCase s')
  end.

(* ------------------------------------------------------------------ *)
(** ** The poll loop of ScanningScreen *)

Module Poll.

(** Settlement of [getReportStatus(currentReportId)] (lib/api.ts).
    [Resolved status error_message]: the parsed body; [status] is [None]
    when the field is absent (then [.toLowerCase()] throws a TypeError).
    [Rejected status]: the thrown error; [apiFetch] sets [error.status] to
    the HTTP status of a non-ok response, network and auth failures carry
    none. *)
Inductive query_result :=
| Resolved (status : option string) (error_message : option string)
| Rejected (http_status : option Z).

(** Observable effects of the loop. *)
Inductive effect :=
| Query                      (* getReportStatus issued *)
| Toast (msg : string)       (* toast.error(msg) *)
| Navigate (s : Screen).     (* setCurrentScreen(s) of the app context *)

Record loop_state := mk_loop {
  isMounted : bool;
  startTime : Z;                       (* startTimeRef.current *)
  progress : Z;                        (* the progress state *)
  pollTimer : option Z;                (* pollingRef: pollStatus due at this time *)
  inFlight : option Z;                 (* awaited query; the [elapsed] captured before it *)
  navTimer : option (Z * Screen);      (* 500 ms setTimeout before setCurrentScreen *)
  clock : Z;                           (* Date.now() at the last event *)
  log : list effect
}.

Definition msg_timeout := "Analysis timed out. Please try again.".
Definition msg_failed := "Report processing failed. Please try again.".
Definition msg_fatal := "Analysis failed: Report not found or invalid.".

Definition emit (st : loop_state) (es : list effect) : loop_state :=
  mk_loop st.(isMounted) st.(startTime) st.(progress) st.(pollTimer)
          st.(inFlight) st.(navTimer) st.(clock) (st.(log) ++ es).

Definition set_pollTimer (st : loop_state) (t : option Z) : loop_state :=
  mk_loop st.(isMounted) st.(startTime) st.(progress) t
          st.(inFlight) st.(navTimer) st.(clock) st.(log).

Definition set_inFlight (st : loop_state) (e : option Z) : loop_state :=
  mk_loop st.(isMounted) st.(startTime) st.(progress) st.(pollTimer)
          e st.(navTimer) st.(clock) st.(log).

Definition set_navTimer (st : loop_state) (n : option (Z * Screen)) : loop_state :=
  mk_loop st.(isMounted) st.(startTime) st.(progress) st.(pollTimer)
          st.(inFlight) n st.(clock) st.(log).

Definition set_progress (st : loop_state) (p : Z) : loop_state :=
  mk_loop st.(isMounted) st.(startTime) p st.(pollTimer)
          st.(inFlight) st.(navTimer) st.(clock) st.(log).

Definition set_clock (st : loop_state) (now : Z) : loop_state :=
  mk_loop st.(isMounted) st.(startTime) st.(progress) st.(pollTimer)
          st.(inFlight) st.(navTimer) now st.(log).

Definition unmount (st : loop_state) : loop_state :=
  mk_loop false st.(startTime) st.(progress) st.(pollTimer)
          st.(inFlight) st.(navTimer) st.(clock) st.(log).

(** [Math.max(Math.min(Math.floor((elapsed / 20000) * 90), 90), 10)];
    the real quotient is floored exactly ([Z.div] floors). *)
Definition estimatedProgress (elapsed : Z) : Z :=
  Z.max (Z.min ((elapsed * 90) / 20000) 90) 10.

(** Body of [pollStatus] up to the [await], run at wall-clock [now]. *)
Definition pollStatus (now : Z) (st : loop_state) : loop_state :=
  let st := set_clock st now in
  if negb st.(isMounted) then st
  else
    let elapsed := now - st.(startTime) in
    if 60000 <? elapsed then emit st [Toast msg_timeout; Navigate scr_scan_error]
    else emit (set_inFlight st (Some elapsed)) [Query].

(** The [catch] block, entered at [now] with [error.status]. *)
Definition pollCatch (now : Z) (code : option Z) (st : loop_state) : loop_state :=
  match code with
  | Some c =>
      if (c =? 404) || (c =? 400)
      then emit st [Toast msg_fatal; Navigate scr_scan_error]
      else if st.(isMounted) then set_pollTimer st (Some (now + 2000)) else st
  | None => if st.(isMounted) then set_pollTimer st (Some (now + 2000)) else st
  end.

(** Continuation of [pollStatus] after the awaited query settles at [now];
    [elapsed] is the value computed before the query. *)
Definition pollResume (now elapsed : Z) (r : query_result) (st : loop_state)
  : loop_state :=
  let st := set_clock (set_inFlight st None) now in
  match r with
  | Rejected code => pollCatch now code st
  | Resolved None _ =>
      if negb st.(isMounted) then st else pollCatch now None st
  | Resolved (Some s) msg =>
      if negb st.(isMounted) then st
      else
        let status := toLowerCase s in
        if String.eqb status "processing" then
          set_pollTimer (set_progress st (estimatedProgress elapsed)) (Some (now + 2000))
        else if String.eqb status "completed" then
          set_navTimer (set_progress st 100) (Some (now + 500, scr_report_result))
        else if String.eqb status "failed" then
          let text := match msg with
                      | Some m => if String.eqb m "" then msg_failed else m
                      | None => msg_failed
                      end in
          set_navTimer (emit st [Toast text]) (Some (now + 500, scr_scan_error))
        else set_pollTimer st (Some (now + 2000))
  end.

(** The effect run at mount, time [t0], on a bound report id: the start
    time is reset and [pollStatus] is called at once. *)
Definition start (t0 : Z) : loop_state :=
  pollStatus t0 (mk_loop true t0 0 None None None t0 []).

(** Events of the JS task queue. *)
Inductive event :=
| FirePoll (now : Z)                    (* the pollStatus timer fires *)
| Settle (now : Z) (r : query_result)   (* the awaited query settles *)
| FireNav (now : Z)                     (* the 500 ms timer fires *)
| Cleanup.                              (* effect cleanup on unmount *)

Definition step (st : loop_state) (ev : event) : option loop_state :=
  match ev with
  | FirePoll now =>
      match st.(pollTimer) with
      | Some _ => Some (pollStatus now (set_pollTimer st None))
      | None => None
      end
  | Settle now r =>
      match st.(inFlight) with
      | Some e => Some (pollResume now e r st)
      | None => None
      end
  | FireNav now =>
      match st.(navTimer) with
      | Some (_, s) =>
          let st' := set_clock (set_navTimer st None) now in
          Some (if st'.(isMounted) then emit st' [Navigate s] else st')
      | None => None
      end
  | Cleanup => Some (set_pollTimer (unmount st) None)
  end.

(** Reachable behaviour: a run of events, stopping at a disabled one. *)
Fixpoint exec (st : loop_state) (evs : list event) : option loop_state :=
  match evs with
  | [] => Some st
  | ev :: evs' =>
      match step st ev with
      | Some st' => exec st' evs'
      | None => None
      end
  end.

Definition event_time (ev : event) : option Z :=
  match ev with
  | FirePoll now | Settle now _ | FireNav now => Some now
  | Cleanup => None
  end.

(** The environment's timing: the wall clock never runs backwards and a
    [setTimeout] never fires before its delay has elapsed. *)
Definition admissible (st : loop_state) (ev : event) : Prop :=
  (forall now, event_time ev = Some now -> st.(clock) <= now) /\
  (forall now t, ev = FirePoll now -> st.(pollTimer) = Some t -> t <= now) /\
  (forall now t s, ev = FireNav now -> st.(navTimer) = Some (t, s) -> t <= now).

Inductive reachable : loop_state -> Prop :=
| reach_start t0 : reachable (start t0)
| reach_step st ev st' :
    reachable st -> admissible st ev -> step st ev = Some st' -> reachable st'.

(** A scheduler that drives one loop to its end: the [k]-th query settles
    [lat k] ms after it is issued with [res k], and the timer scheduled after
    it fires [late k] ms after its due time. *)
Section Driver.
Variable lat late : nat -> Z.
Variable res : nat -> query_result.

Definition next_event (k : nat) (st : loop_state) : option (event * nat) :=
  match st.(inFlight), st.(pollTimer), st.(navTimer) with
  | Some _, _, _ => Some (Settle (st.(clock) + lat k) (res k), S k)
  | None, Some t, _ => Some (FirePoll (t + late k), k)
  | None, None, Some (t, _) => Some (FireNav t, k)
  | None, None, None => None
  end.

Fixpoint drive (fuel k : nat) (st : loop_state) : loop_state :=
  match fuel with
  | O => st
  | S f =>
      match next_event k st with
      | Some (ev, k') =>
          match step st ev with
          | Some st' => drive f k' st'
          | None => st
          end
      | None => st
      end
  end.
End Driver.

Definition is_nav (e : effect) : bool :=
  match e with Navigate _ => true | _ => false end.

Definition is_query (e : effect) : bool :=
  match e with Query => true | _ => false end.

Definition count_nav (l : list effect) : nat := length (filter is_nav l).
Definition count_query (l : list effect) : nat := length (filter is_query l).

Definition quiescent (st : loop_state) : Prop :=
  st.(pollTimer) = None /\ st.(inFlight) = None /\ st.(navTimer) = None.

Definition terminal_ok (st : loop_state) : Prop :=
  quiescent st /\
  exists pre s, st.(log) = pre ++ [Navigate s] /\ count_nav pre = 0%nat.

Definition good_poll (st : loop_state) (t : Z) (n : nat) : Prop :=
  st.(isMounted) = true /\ st.(pollTimer) = Some t /\ st.(inFlight) = None /\
  st.(navTimer) = None /\ count_nav st.(log) = 0%nat /\
  st.(clock) <= t /\ t - st.(startTime) > 60000 - 2000 * Z.of_nat n.

Definition good_flight (st : loop_state) (e : Z) (n : nat) : Prop :=
  st.(isMounted) = true /\ st.(pollTimer) = None /\ st.(inFlight) = Some e /\
  st.(navTimer) = None /\ count_nav st.(log) = 0%nat /\
  st.(clock) - st.(startTime) > 60000 - 2000 * Z.of_nat (S n).


Section DriverSpec.
Variables lat late : nat -> Z.
Variable res : nat -> query_result.

Definition poll_ok (n : nat) : Prop :=
  forall fuel k st t, (2 * n + 3 <= fuel)%nat -> good_poll st t n ->
  terminal_ok (drive lat late res fuel k st).

Definition flight_ok (n : nat) : Prop :=
  forall fuel k st e, (2 * n + 4 <= fuel)%nat -> good_flight st e n ->
  terminal_ok (drive lat late res fuel k st).

End DriverSpec.

(** The invariant of the reachable states of one loop. *)
Definition Inv (st : loop_state) : Prop :=
  (st.(inFlight) = None \/ st.(pollTimer) = None) /\
  (forall e, st.(inFlight) = Some e ->
     st.(progress) <= estimatedProgress e /\ st.(startTime) + e <= st.(clock)) /\
  (forall t, st.(pollTimer) = Some t ->
     st.(progress) <= estimatedProgress (t - st.(startTime))) /\
  (st.(progress) = 100 -> st.(inFlight) = None /\ st.(pollTimer) = None) /\
  (forall n, st.(navTimer) = Some n -> st.(inFlight) = None /\ st.(pollTimer) = None).


End Poll.

(* ------------------------------------------------------------------ *)
(** ** Session and navigation state of AppContext *)

Module App.

(** [localStorage] as an association list of string keys and values. *)
Definition storage := list (string * string).

Fixpoint getItem (k : string) (s : storage) : option string :=
  match s with
  | [] => None
  | (k', v) :: s' => if String.eqb k k' then Some v else getItem k s'
  end.

Definition removeItem (k : string) (s : storage) : storage :=
  filter (fun kv => negb (String.eqb k (fst kv))) s.

Definition setItem (k v : string) (s : storage) : storage :=
  (k, v) :: removeItem k s.

Definition key_screen := "mediguide_current_screen".
Definition key_tab := "mediguide_active_tab".

(** The provider's state that the claims involve, with localStorage and the
    dependencies [[currentScreen, activeTab, isLoggedIn]] seen by the last
    run of the persistence effect. *)
Record app_state := mk_app {
  currentScreen : Screen;
  activeTab : Tab;
  isLoggedIn : bool;
  store : storage;
  lastDeps : option (Screen * Tab * bool)
}.

Definition set_screen (st : app_state) (s : Screen) : app_state :=
  mk_app s st.(activeTab) st.(isLoggedIn) st.(store) st.(lastDeps).
Definition set_tab (st : app_state) (t : Tab) : app_state :=
  mk_app st.(currentScreen) t st.(isLoggedIn) st.(store) st.(lastDeps).
Definition set_loggedIn (st : app_state) (b : bool) : app_state :=
  mk_app st.(currentScreen) st.(activeTab) b st.(store) st.(lastDeps).
Definition set_store (st : app_state) (s : storage) : app_state :=
  mk_app st.(currentScreen) st.(activeTab) st.(isLoggedIn) s st.(lastDeps).

(** The screens the code never persists nor restores. *)
Definition is_auth_screen (s : Screen) : bool :=
  String.eqb s scr_splash || String.eqb s scr_onboarding ||
  String.eqb s scr_login || String.eqb s scr_signup.

(** A JS string is truthy when it is not empty. *)
Definition truthy (s : string) : bool := negb (String.eqb s "").

(** Body of the persistence [useEffect]. *)
Definition persist (st : app_state) : storage :=
  let s := st.(store) in
  let s := if st.(isLoggedIn) && negb (is_auth_screen st.(currentScreen))
           then setItem key_screen st.(currentScreen) s else s in
  if st.(isLoggedIn) && truthy st.(activeTab) then setItem key_tab st.(activeTab) s else s.

Definition deps_eqb (a b : Screen * Tab * bool) : bool :=
  let '(s1, t1, l1) := a in let '(s2, t2, l2) := b in
  String.eqb s1 s2 && String.eqb t1 t2 && Bool.eqb l1 l2.

(** A React commit of the pending state updates: the persistence effect
    runs when one of its dependencies changed since its last run. *)
Definition commit (st : app_state) : app_state :=
  let deps := (st.(currentScreen), st.(activeTab), st.(isLoggedIn)) in
  match st.(lastDeps) with
  | Some d => if deps_eqb d deps then st
              else mk_app st.(currentScreen) st.(activeTab) st.(isLoggedIn) (persist st) (Some deps)
  | None => mk_app st.(currentScreen) st.(activeTab) st.(isLoggedIn) (persist st) (Some deps)
  end.

(** First render of [AppProvider] over the stored entries, and its
    effects. *)
Definition mount (stored : storage) : app_state :=
  commit (mk_app scr_splash "home" false stored None).

(** The saved-state restoration shared by [initializeAuth] and the
    SIGNED_IN handler; [reset_tab] is the latter's extra
    [setActiveTab('home')] when nothing is restored. *)
Definition restore (reset_tab : bool) (st : app_state) : app_state :=
  let savedScreen := getItem key_screen st.(store) in
  let savedTab := getItem key_tab st.(store) in
  match savedScreen with
  | Some sc =>
      if truthy sc && negb (is_auth_screen sc) then
        let st := set_screen st sc in
        match savedTab with
        | Some tb => if truthy tb then set_tab st tb else st
        | None => st
        end
      else if reset_tab then set_tab (set_screen st scr_home) "home" else set_screen st scr_home
  | None => if reset_tab then set_tab (set_screen st scr_home) "home" else set_screen st scr_home
  end.

(** [initializeAuth]: [valid] is [session && supabaseUser] (a thrown error
    takes the same path as [false]).  After [setIsLoggedIn(true)] the code
    awaits [fetchUserProfile], a request to the profile table: React renders
    the pending update and runs the persistence effect before that request
    answers, hence the [commit] before the stored entries are read. *)
Definition initializeAuth (valid : bool) (st : app_state) : app_state :=
  if valid then commit (restore false (commit (set_loggedIn st true)))
  else commit (set_screen (set_loggedIn st false) scr_onboarding).

(** Events handled by the provider. *)
Inductive app_event :=
| Init (valid : bool)
| SignedIn (user_present : bool)   (* SIGNED_IN with a session *)
| SignedOut
| TokenRefreshed
| SetCurrentScreen (s : Screen)    (* setCurrentScreen from any screen *)
| SetActiveTab (t : Tab).

Definition onSignedOut (st : app_state) : app_state :=
  let st := set_tab (set_screen (set_loggedIn st false) scr_onboarding) "home" in
  commit (set_store st (removeItem key_tab (removeItem key_screen st.(store)))).

Definition app_step (st : app_state) (ev : app_event) : app_state :=
  match ev with
  | Init valid => initializeAuth valid st
  | SignedIn user_present =>
      (* setIsLoggedIn(true); await getCurrentUser(); ... await fetchUserProfile *)
      let st := commit (set_loggedIn st true) in
      if user_present then commit (restore true st) else st
  | SignedOut => onSignedOut st
  | TokenRefreshed => commit (set_loggedIn st true)
  | SetCurrentScreen s => commit (set_screen st s)
  | SetActiveTab t => commit (set_tab st t)
  end.

Definition app_run (st : app_state) (evs : list app_event) : app_state :=
  fold_left app_step evs st.

Definition saved_screen_ok (s : storage) : Prop :=
  forall v, getItem key_screen s = Some v -> is_auth_screen v = false.

End App.

(* ------------------------------------------------------------------ *)
(** ** JS string helpers: [split] on one character and [Array.join] *)

Module JsString.

(** [s.split(sep)] for a one-character separator: always at least one
    piece. *)
Fixpoint split_on (sep : ascii) (s : string) : list string :=
  match s with
  | EmptyString => [EmptyString]
  | String c t =>
      if ascii_dec c sep then EmptyString :: split_on sep t
      else match split_on sep t with
           | w :: ws => String c w :: ws
           | [] => [String c EmptyString]
           end
  end.

(** [parts.join(sep)]. *)
Fixpoint join (sep : string) (l : list string) : string :=
  match l with
  | [] => EmptyString
  | [w] => w
  | w :: ws => w ++ sep ++ join sep ws
  end%string.

(** [s.includes(c)] for one character. *)
Fixpoint has_char (c : ascii) (s : string) : bool :=
  match s with
  | EmptyString => false
  | String c' t => if ascii_dec c' c then true else has_char c t
  end.

(** [s.includes(sub)]. *)
Fixpoint includes (s sub : string) : bool :=
  prefix sub s ||
  match s with
  | EmptyString => false
  | String _ t => includes t sub
  end.

End JsString.

(* ------------------------------------------------------------------ *)
(** ** [URLSearchParams]: the application/x-www-form-urlencoded
      serializer and parser of the URL standard, over the bytes of the
      strings *)

Module UrlParams.
Import JsString.

Definition hex_digit (n : nat) : ascii :=
  ascii_of_nat (if Nat.ltb n 10 then 48 + n else 55 + n).

Definition hex_value (c : ascii) : option nat :=
  let n := nat_of_ascii c in
  if (Nat.leb 48 n && Nat.leb n 57)%bool then Some (n - 48)%nat
  else if (Nat.leb 65 n && Nat.leb n 70)%bool then Some (n - 55)%nat
  else if (Nat.leb 97 n && Nat.leb n 102)%bool then Some (n - 87)%nat
  else None.

(** Bytes left as they are: [*], [-], [.], digits, letters, [_]. *)
Definition form_safe (c : ascii) : bool :=
  let n := nat_of_ascii c in
  (Nat.eqb n 42 || Nat.eqb n 45 || Nat.eqb n 46 || (Nat.leb 48 n && Nat.leb n 57) ||
   (Nat.leb 65 n && Nat.leb n 90) || Nat.eqb n 95 || (Nat.leb 97 n && Nat.leb n 122))%bool.

Definition encode_byte (c : ascii) : string :=
  if form_safe c then String c EmptyString
  else if Nat.eqb (nat_of_ascii c) 32 then "+"
  else String "%"%char (String (hex_digit (nat_of_ascii c / 16))
                          (String (hex_digit (nat_of_ascii c mod 16)) EmptyString)).

Fixpoint form_encode (s : string) : string :=
  match s with
  | EmptyString => EmptyString
  | String c t => (encode_byte c ++ form_encode t)%string
  end.

(** [params.toString()]. *)
Definition serialize (ps : list (string * string)) : string :=
  join "&" (map (fun kv => form_encode (fst kv) ++ "=" ++ form_encode (snd kv))%string ps).

(** The parser: split on [&], drop empty pieces, cut at the first [=],
    turn [+] into a space, then percent-decode. *)
Fixpoint split_first (sep : ascii) (s : string) : string * option string :=
  match s with
  | EmptyString => (EmptyString, None)
  | String c t =>
      if ascii_dec c sep then (EmptyString, Some t)
      else let (a, b) := split_first sep t in (String c a, b)
  end.

Fixpoint plus_to_space (s : string) : string :=
  match s with
  | EmptyString => EmptyString
  | String c t => String (if ascii_dec c "+"%char then " "%char else c) (plus_to_space t)
  end.

Fixpoint percent_decode (s : string) : string :=
  match s with
  | EmptyString => EmptyString
  | String c t =>
      if ascii_dec c "%"%char then
        match t with
        | String h1 (String h2 rest) =>
            match hex_value h1, hex_value h2 with
            | Some a, Some b => String (ascii_of_nat (a * 16 + b)) (percent_decode rest)
            | _, _ => String c (percent_decode t)
            end
        | _ => String c (percent_decode t)
        end
      else String c (percent_decode t)
  end.

Definition form_decode (s : string) : string := percent_decode (plus_to_space s).

Definition parse_pair (seq : string) : string * string :=
  let (name, value) := split_first "="%char seq in
  (form_decode name, match value with Some v => form_decode v | None => EmptyString end).

Definition parse (q : string) : list (string * string) :=
  map parse_pair (filter (fun s => negb (String.eqb s EmptyString)) (split_on "&"%char q)).

End UrlParams.

(* ------------------------------------------------------------------ *)
(** ** The API client (lib/api.ts) *)

Module Api.

(** Values of [response.json()]; numbers are the integers of the
    backend's answers. *)
#[warnings="-register-all"]
Inductive json :=
| JNull
| JBool (b : bool)
| JNum (n : Z)
| JStr (s : string)
| JArr (items : list json)
| JObj (fields : list (string * json)).

(** [v.k] on a parsed value other than [null]: [None] is [undefined]; a
    duplicated key keeps its last value, as [JSON.parse] does. *)
Definition get_field (k : string) (v : json) : option json :=
  match v with
  | JObj fs => fold_left (fun acc kv => if String.eqb k (fst kv) then Some (snd kv) else acc) fs None
  | _ => None
  end.

(** JS truthiness of a possibly undefined value. *)
Definition json_truthy (v : option json) : bool :=
  match v with
  | None | Some JNull => false
  | Some (JBool b) => b
  | Some (JNum n) => negb (n =? 0)
  | Some (JStr s) => negb (String.eqb s "")
  | Some (JArr _) | Some (JObj _) => true
  end.

(** [a || b] with [b] defined. *)
Definition or_else (a : option json) (b : json) : json :=
  match a with
  | Some v => if json_truthy (Some v) then v else b
  | None => b
  end.

(** A possibly undefined string, tested for truthiness. *)
Definition opt_truthy (v : option string) : bool :=
  match v with Some s => negb (String.eqb s "") | None => false end.

Record file := mk_file { file_name : string; file_type : string }.

Inductive form_value := FormFile (f : file) | FormString (s : string).

Inductive req_body :=
| NoBody
| FormDataBody (entries : list (string * form_value))
| TextBody (s : string).

(** The [RequestInit] fields the client uses; [headers] is a plain
    object, kept in key order. *)
Record request_init := mk_init {
  method : option string;
  body : req_body;
  headers : list (string * string)
}.

Definition no_options := mk_init None NoBody [].

Record request := mk_request { url : string; init : request_init }.

(** A [Response]; [json_body] is [None] when the body is not JSON. *)
Record response := mk_response {
  status : Z;
  statusText : string;
  json_body : option json
}.

Definition ok (r : response) : bool := (200 <=? r.(status)) && (r.(status) <=? 299).

(** What [apiFetch] throws. *)
Inductive api_error :=
| HttpError (message : json) (code : Z)   (* new Error(...) with .status *)
| NotAuthenticated                        (* 'User is not authenticated' *)
| NetworkError                            (* fetch rejected (TypeError) *)
| BadBody                                 (* response.json() rejected *)
| NullBody.                               (* property read on a null value (TypeError) *)

(** [error.status] as the catch blocks read it. *)
Definition error_status (e : api_error) : option Z :=
  match e with HttpError _ c => Some c | _ => None end.

Inductive api_result := Resolves (v : json) | Throws (e : api_error).

(** Plain-object property read and write. *)
Fixpoint obj_get (k : string) (o : list (string * string)) : option string :=
  match o with
  | [] => None
  | (k', v) :: o' => if String.eqb k k' then Some v else obj_get k o'
  end.

Fixpoint obj_set (k v : string) (o : list (string * string)) : list (string * string) :=
  match o with
  | [] => [(k, v)]
  | (k', v') :: o' => if String.eqb k k' then (k, v) :: o' else (k', v') :: obj_set k v o'
  end.

Definition is_form_data (b : req_body) : bool :=
  match b with FormDataBody _ => true | _ => false end.

(** [errorBody.detail || errorBody.message || `API request failed: ...`]. *)
Definition error_arg (errorBody : json) (statusText : string) : json :=
  or_else (get_field "detail" errorBody)
          (or_else (get_field "message" errorBody) (JStr ("API request failed: " ++ statusText)%string)).

Section Client.
Variable API_BASE_URL : string.

Definition build_headers (token : string) (options : request_init) : list (string * string) :=
  let headers := obj_set "Authorization" ("Bearer " ++ token)%string options.(headers) in
  if negb (is_form_data options.(body)) && negb (opt_truthy (obj_get "Content-Type" headers))
  then obj_set "Content-Type" "application/json" headers
  else headers.

(** [apiFetch(endpoint, options)]: [session] is [session?.access_token],
    [fetch] answers a request with a response or rejects ([None]).  The
    result lists the requests sent. *)
Definition apiFetch (session : option string) (endpoint : string) (options : request_init)
  (fetch : request -> option response) : list request * api_result :=
  if negb (opt_truthy session) then ([], Throws NotAuthenticated)
  else
    let token := match session with Some t => t | None => "" end in
    let req := mk_request (API_BASE_URL ++ endpoint)%string
                 (mk_init options.(method) options.(body) (build_headers token options)) in
    ([req],
     match fetch req with
     | None => Throws NetworkError
     | Some response =>
         if negb (ok response) then
           let errorBody := match response.(json_body) with
                            | Some v => v
                            | None => JObj [("message", JStr "Request failed")]
                            end in
           match errorBody with
           | JNull => Throws NullBody
           | _ => Throws (HttpError (error_arg errorBody response.(statusText)) response.(status))
           end
         else if response.(status) =? 204 then Resolves (JObj [])
         else match response.(json_body) with
              | Some v => Resolves v
              | None => Throws BadBody
              end
     end).

Definition uploadReport (session : option string) (f : file) (reportType : option string)
  (fetch : request -> option response) : list request * api_result :=
  let formData := [("file", FormFile f)] ++
                  match reportType with
                  | Some t => if opt_truthy reportType then [("report_type", FormString t)] else []
                  | None => []
                  end in
  apiFetch session "/reports/upload" (mk_init (Some "POST") (FormDataBody formData) []) fetch.

Definition getReportStatus (session : option string) (reportId : string)
  (fetch : request -> option response) : list request * api_result :=
  apiFetch session ("/reports/" ++ reportId ++ "/status")%string no_options fetch.

Definition deleteReport (session : option string) (reportId : string)
  (fetch : request -> option response) : list request * api_result :=
  apiFetch session ("/reports/" ++ reportId)%string (mk_init (Some "DELETE") NoBody []) fetch.

End Client.

(** How the poll loop of ScanningScreen sees a settled [getReportStatus]
    call: [reportStatus.status.toLowerCase()] needs a string status (a
    missing or non-string one, or a [null] body, throws a TypeError without
    [.status]); [error_message] is read as a string, a non-string value
    being outside the declared type. *)
Definition status_result (r : api_result) : Poll.query_result :=
  match r with
  | Resolves v =>
      Poll.Resolved (match get_field "status" v with Some (JStr s) => Some s | _ => None end)
                    (match get_field "error_message" v with Some (JStr m) => Some m | _ => None end)
  | Throws e => Poll.Rejected (error_status e)
  end.

End Api.

(* ------------------------------------------------------------------ *)
(** ** [listReports] (lib/api.ts) and the report list of HistoryScreen *)

Module Reports.

(** [Number.prototype.toString()] on integers. *)
Fixpoint digits (fuel : nat) (n : Z) (acc : string) : string :=
  match fuel with
  | O => acc
  | S f =>
      let acc := String (ascii_of_nat (48 + Z.to_nat (n mod 10))) acc in
      if n <? 10 then acc else digits f (n / 10) acc
  end.

Definition Z_toString (n : Z) : string :=
  if n <? 0 then String "-"%char (digits (Pos.size_nat (Z.to_pos (- n))) (- n) "")
  else digits (Pos.size_nat (Z.to_pos n)) n "".

(** The optional [params] of [listReports]. *)
Record list_params := mk_list_params {
  search : option string;
  report_type : option string;
  flag_level : option string;
  time_range : option string;
  page : option Z;
  limit : option Z;
  user_id : option string;
  status : option string
}.

(** [if (params?.k) queryParams.append(name, ...)]. *)
Definition str_param (name : string) (v : option string) : list (string * string) :=
  match v with Some s => if App.truthy s then [(name, s)] else [] | None => [] end.

Definition num_param (name : string) (v : option Z) : list (string * string) :=
  match v with Some n => if n =? 0 then [] else [(name, Z_toString n)] | None => [] end.

Definition listReports_query (params : option list_params) : list (string * string) :=
  match params with
  | None => []
  | Some p =>
      str_param "search" p.(search) ++ str_param "report_type" p.(report_type) ++
      str_param "flag_level" p.(flag_level) ++ str_param "status" p.(status) ++
      str_param "time_range" p.(time_range) ++ num_param "page" p.(page) ++
      num_param "limit" p.(limit) ++ str_param "target_user_id" p.(user_id)
  end.

Definition listReports (base : string) (session : option string) (params : option list_params)
  (fetch : Api.request -> option Api.response) : list Api.request * Api.api_result :=
  Api.apiFetch base session ("/reports?" ++ UrlParams.serialize (listReports_query params))%string
               Api.no_options fetch.

(** The [filters] state of HistoryScreen. *)
Record filters := mk_filters { type : string; flag : string; time : string }.

Definition time_range_of (t : string) : string :=
  if String.eqb t "All Time" then "all"
  else if String.eqb t "Last 7 Days" then "7d"
  else if String.eqb t "Last Month" then "30d"
  else if String.eqb t "Last 3 Months" then "90d"
  else "all".

(** The argument of [listReports] in [loadReports]; [viewingMember] is
    [viewingMember?.user_id]. *)
Definition loadReports_params (f : filters) (viewingMember : option string) : list_params :=
  mk_list_params None
    (if String.eqb f.(type) "All Types" then None else Some f.(type))
    (if String.eqb f.(flag) "All" then None else Some (toLowerCase f.(flag)))
    (Some (time_range_of f.(time))) (Some 1) (Some 50) viewingMember (Some "completed").

End Reports.

Module History.
Import JsString.

(** A report of the screen's list (the fields the handlers read). *)
Record report := mk_report { id : string; type : string; labName : string }.

Inductive click_effect :=
| Select (selectedReports : list string)  (* setSelectedReports(...) *)
| Open (reportId : string).               (* setCurrentReportId(id); setCurrentScreen('report-result') *)

Definition handleReportClick (isDeleteMode : bool) (selectedReports : list string)
  (reportId : string) : click_effect :=
  if isDeleteMode then
    if existsb (String.eqb reportId) selectedReports
    then Select (filter (fun i => negb (String.eqb i reportId)) selectedReports)
    else Select (selectedReports ++ [reportId])
  else Open reportId.

Record history_state := mk_history {
  reports : list report;
  selectedReports : list string;
  isDeleteMode : bool
}.

(** [performDelete]: [viewing] is [!!viewingMember], [deleteOk] the
    outcome of each [deleteReport] call of the [Promise.all].  Result: the
    ids sent to the backend, the toast, the new state. *)
Definition performDelete (viewing : bool) (deleteOk : string -> bool) (st : history_state)
  : list string * string * history_state :=
  if viewing then ([], "Cannot delete shared reports", st)
  else
    let sent := st.(selectedReports) in
    if forallb deleteOk sent then
      (sent, "Reports deleted successfully",
       mk_history (filter (fun r => negb (existsb (String.eqb r.(id)) sent)) st.(reports)) [] false)
    else (sent, "Failed to delete reports", st).

Definition filteredReports (searchQuery : string) (rs : list report) : list report :=
  filter (fun r => includes (toLowerCase r.(type)) (toLowerCase searchQuery) ||
                   includes (toLowerCase r.(labName)) (toLowerCase searchQuery)) rs.

End History.

(* ------------------------------------------------------------------ *)
(** ** ScanningScreen without a report id, and ScanScreen *)

Module Redirect.

(** The effect of ScanningScreen when [currentReportId] is falsy: a
    2000 ms timer, cleared by the cleanup. *)
Record redirect_state := mk_redirect {
  timer : option Z;
  r_clock : Z;
  r_log : list Poll.effect
}.

Definition redirect_start (t0 : Z) : redirect_state := mk_redirect (Some (t0 + 2000)) t0 [].

Inductive redirect_event := RFire (now : Z) | RCleanup.

Definition redirect_step (currentReportId : option Api.json) (st : redirect_state)
  (ev : redirect_event) : option redirect_state :=
  match ev with
  | RFire now =>
      match st.(timer) with
      | Some _ =>
          Some (mk_redirect None now
                  (if Api.json_truthy currentReportId then st.(r_log)
                   else st.(r_log) ++ [Poll.Navigate "scan"]))
      | None => None
      end
  | RCleanup => Some (mk_redirect None st.(r_clock) st.(r_log))
  end.

Fixpoint redirect_exec (currentReportId : option Api.json) (st : redirect_state)
  (evs : list redirect_event) : option redirect_state :=
  match evs with
  | [] => Some st
  | ev :: evs' =>
      match redirect_step currentReportId st ev with
      | Some st' => redirect_exec currentReportId st' evs'
      | None => None
      end
  end.

Inductive scanning_state :=
| Redirecting (st : redirect_state)
| Polling (st : Poll.loop_state).

(** The effect of ScanningScreen at mount: [currentReportId] is the
    context value ([null], or the [report_id] stored by ScanScreen). *)
Definition scanning_mount (currentReportId : option Api.json) (t0 : Z) : scanning_state :=
  if Api.json_truthy currentReportId then Polling (Poll.start t0)
  else Redirecting (redirect_start t0).

End Redirect.

Module Scan.

Inductive file_kind := KImage | KPdf.

Definition accepts (kind : file_kind) (f : Api.file) : bool :=
  match kind with
  | KImage => prefix "image/" f.(Api.file_type)
  | KPdf => String.eqb f.(Api.file_type) "application/pdf"
  end.

(** [validateAndAddFiles(files, type)] on [capturedImages]: the new list
    and the error toast. *)
Definition validateAndAddFiles (files : option (list Api.file)) (kind : file_kind)
  (capturedImages : list Api.file) : list Api.file * option string :=
  match files with
  | None | Some [] => (capturedImages, None)
  | Some fs =>
      let newFiles := filter (accepts kind) fs in
      let hasInvalidFile := existsb (fun f => negb (accepts kind f)) fs in
      (if Nat.ltb 0 (length newFiles) then capturedImages ++ newFiles else capturedImages,
       if hasInvalidFile
       then Some ("Please select " ++ (match kind with KImage => "image" | KPdf => "PDF" end)
                  ++ " files only.")%string
       else None)
  end.

Inductive scan_toast := NeedDocument | Uploaded | UploadFailed (e : Api.api_error).

Record scan_result := mk_scan_result {
  scan_requests : list Api.request;
  scan_toast_of : scan_toast;
  new_report_id : option (option Api.json);   (* setCurrentReportId(result.report_id) *)
  new_screen : option Screen
}.

Definition handleScan (base : string) (session : option string) (capturedImages : list Api.file)
  (fetch : Api.request -> option Api.response) : scan_result :=
  match capturedImages with
  | [] => mk_scan_result [] NeedDocument None None
  | f :: _ =>
      let (reqs, r) := Api.uploadReport base session f None fetch in
      match r with
      | Api.Resolves Api.JNull => mk_scan_result reqs (UploadFailed Api.NullBody) None (Some scr_scan_error)
      | Api.Resolves v => mk_scan_result reqs Uploaded (Some (Api.get_field "report_id" v)) (Some "scanning")
      | Api.Throws e => mk_scan_result reqs (UploadFailed e) None (Some scr_scan_error)
      end
  end.

End Scan.

(* ------------------------------------------------------------------ *)
(** ** [fetchUserProfile] of AppContext *)

Module Profile.
Import JsString.

(** A row of the [profiles] table; [None] is SQL null. *)
Record profile_row := mk_row {
  full_name : option string;
  dob : option string;
  phone_number : option string;
  gender : option string;
  blood_group : option string;
  allergies : option string;
  health_conditions : option string;
  em_contact_name : option string;
  em_relationship : option string;
  em_phone : option string;
  profile_image_url : option string
}.

Record user := mk_user {
  firstName : string;
  lastName : string;
  email : string;
  dateOfBirth : string;
  phoneNumber : string;
  user_gender : string;
  bloodGroup : string;
  user_allergies : string;
  conditions : string;
  emergencyName : string;
  emergencyRelationship : string;
  emergencyPhone : string;
  profileImage : option string
}.

Record auth_user := mk_auth_user { auth_id : string; auth_email : option string }.

(** The answer of [.from('profiles').select('*').eq('id', ...).single()]. *)
Inductive profile_query := ProfileError | ProfileData (data : option profile_row).

(** [x ?? '']. *)
Definition or_empty (v : option string) : string := match v with Some s => s | None => "" end.

(** [fetchUserProfile(authUser)]: the user passed to [setUser] (together
    with [setHasCompletedProfile(true)]), or [None] when it returns early. *)
Definition fetchUserProfile (authUser : option auth_user) (query : string -> profile_query)
  : option user :=
  match authUser with
  | None => None
  | Some u =>
      match query u.(auth_id) with
      | ProfileError | ProfileData None => None
      | ProfileData (Some p) =>
          let fullName := or_empty p.(full_name) in
          let nameParts := split_on " "%char fullName in
          let firstName := match nameParts with w :: _ => w | [] => "" end in
          let lastName := join " " (tl nameParts) in
          Some (mk_user firstName lastName (or_empty u.(auth_email)) (or_empty p.(dob))
                  (or_empty p.(phone_number)) (or_empty p.(gender)) (or_empty p.(blood_group))
                  (or_empty p.(allergies)) (or_empty p.(health_conditions))
                  (or_empty p.(em_contact_name)) (or_empty p.(em_relationship))
                  (or_empty p.(em_phone)) p.(profile_image_url))
      end
  end.

End Profile.

(* ------------------------------------------------------------------ *)
(** ** The second ScanningScreen (AddFamilyScreen.tsx, lines 287-418)

    Same events and effects as [Poll]; this copy has no timeout, adds 5 to
    the progress per "processing" answer, toasts a fixed message on
    "failed", and retries on every error. *)

Module Poll2.

Record loop_state := mk_loop {
  isMounted : bool;
  progress : Z;
  timeoutId : option Z;                 (* pollStatus due at this time *)
  inFlight : bool;
  navTimer : option (Z * Screen);
  clock : Z;
  log : list Poll.effect
}.

Definition emit (st : loop_state) (es : list Poll.effect) : loop_state :=
  mk_loop st.(isMounted) st.(progress) st.(timeoutId) st.(inFlight) st.(navTimer) st.(clock)
          (st.(log) ++ es).
Definition set_timeoutId (st : loop_state) (t : option Z) : loop_state :=
  mk_loop st.(isMounted) st.(progress) t st.(inFlight) st.(navTimer) st.(clock) st.(log).
Definition set_inFlight (st : loop_state) (b : bool) : loop_state :=
  mk_loop st.(isMounted) st.(progress) st.(timeoutId) b st.(navTimer) st.(clock) st.(log).
Definition set_navTimer (st : loop_state) (n : option (Z * Screen)) : loop_state :=
  mk_loop st.(isMounted) st.(progress) st.(timeoutId) st.(inFlight) n st.(clock) st.(log).
Definition set_progress (st : loop_state) (p : Z) : loop_state :=
  mk_loop st.(isMounted) p st.(timeoutId) st.(inFlight) st.(navTimer) st.(clock) st.(log).
Definition set_clock (st : loop_state) (now : Z) : loop_state :=
  mk_loop st.(isMounted) st.(progress) st.(timeoutId) st.(inFlight) st.(navTimer) now st.(log).
Definition unmount (st : loop_state) : loop_state :=
  mk_loop false st.(progress) st.(timeoutId) st.(inFlight) st.(navTimer) st.(clock) st.(log).

Definition pollStatus (now : Z) (st : loop_state) : loop_state :=
  let st := set_clock st now in
  if negb st.(isMounted) then st else emit (set_inFlight st true) [Poll.Query].

(** The [catch] block. *)
Definition pollCatch (now : Z) (st : loop_state) : loop_state :=
  if st.(isMounted) then set_timeoutId st (Some (now + 2000)) else st.

Definition pollResume (now : Z) (r : Poll.query_result) (st : loop_state) : loop_state :=
  let st := set_clock (set_inFlight st false) now in
  match r with
  | Poll.Rejected _ => pollCatch now st
  | Poll.Resolved None _ => if negb st.(isMounted) then st else pollCatch now st
  | Poll.Resolved (Some s) _ =>
      if negb st.(isMounted) then st
      else
        let status := toLowerCase s in
        if String.eqb status "processing" then
          set_timeoutId (set_progress st (Z.min (st.(progress) + 5) 90)) (Some (now + 2000))
        else if String.eqb status "completed" then
          set_navTimer (set_progress st 100) (Some (now + 500, scr_report_result))
        else if String.eqb status "failed" then
          set_navTimer (emit st [Poll.Toast Poll.msg_failed]) (Some (now + 500, scr_scan_error))
        else set_timeoutId st (Some (now + 2000))
  end.

Definition start (t0 : Z) : loop_state :=
  pollStatus t0 (mk_loop true 0 None false None t0 []).

Definition step (st : loop_state) (ev : Poll.event) : option loop_state :=
  match ev with
  | Poll.FirePoll now =>
      match st.(timeoutId) with
      | Some _ => Some (pollStatus now (set_timeoutId st None))
      | None => None
      end
  | Poll.Settle now r => if st.(inFlight) then Some (pollResume now r st) else None
  | Poll.FireNav now =>
      match st.(navTimer) with
      | Some (_, s) =>
          let st' := set_clock (set_navTimer st None) now in
          Some (if st'.(isMounted) then emit st' [Poll.Navigate s] else st')
      | None => None
      end
  | Poll.Cleanup => Some (set_timeoutId (unmount st) None)
  end.

Fixpoint exec (st : loop_state) (evs : list Poll.event) : option loop_state :=
  match evs with
  | [] => Some st
  | ev :: evs' =>
      match step st ev with
      | Some st' => exec st' evs'
      | None => None
      end
  end.

(** The answers after which this copy polls again. *)
Definition keeps_polling (r : Poll.query_result) : bool :=
  match r with
  | Poll.Rejected _ | Poll.Resolved None _ => true
  | Poll.Resolved (Some s) _ =>
      negb (String.eqb (toLowerCase s) "completed" || String.eqb (toLowerCase s) "failed")
  end.

End Poll2.


(* ------------------------------------------------------------------ *)
(** ** Bookkeeping of the poll loop's queries *)

Module PollFacts.
Import Poll.

(** The query count of one loop: [last] is the elapsed time of the last
    query issued; queries are at least 2000 ms apart and none is issued
    past 60000 ms. *)
Definition QInv (st : loop_state) : Prop :=
  exists last, last <= 60000 /\
    2000 * Z.of_nat (count_query st.(log)) <= last + 2000 /\
    st.(startTime) + last <= st.(clock) /\
    (forall e, st.(inFlight) = Some e -> e = last) /\
    (forall t, st.(pollTimer) = Some t -> st.(startTime) + last + 2000 <= t).

End PollFacts.

(* ------------------------------------------------------------------ *)
(** ** Sanity checks on concrete runs *)

Module PollExamples.
Import Poll.

Example lower_ex : toLowerCase "ProCessing" = "processing".
Proof. reflexivity. Qed.

Example progress_ex : estimatedProgress 0 = 10 /\ estimatedProgress 10000 = 45
  /\ estimatedProgress 30000 = 90.
Proof. repeat split; reflexivity. Qed.

Example run_processing_forever :
  log (drive (fun _ => 0) (fun _ => 0) (fun _ => Resolved (Some "processing") None)
             64 0 (start 0))
  = (concat (repeat [Query] 30)) ++ [Query; Toast msg_timeout; Navigate scr_scan_error].
Proof. vm_compute. reflexivity. Qed.
End PollExamples.

(* ------------------------------------------------------------------ *)
(** ** Proofs about the poll loop *)

Module PollProofs.
Import Poll.

Lemma count_nav_app l l' : count_nav (l ++ l') = (count_nav l + count_nav l')%nat.
Proof. unfold count_nav. rewrite filter_app, length_app. reflexivity. Qed.

Lemma count_query_app l l' : count_query (l ++ l') = (count_query l + count_query l')%nat.
Proof. unfold count_query. rewrite filter_app, length_app. reflexivity. Qed.

Lemma drive_quiescent lat late res fuel k st :
  quiescent st -> drive lat late res fuel k st = st.
Proof.
  intros [H1 [H2 H3]]. destruct fuel; simpl; [reflexivity|].
  unfold next_event. rewrite H2, H1, H3. reflexivity.
Qed.

Ltac split_ifs :=
  repeat match goal with
         | |- context [if ?b then _ else _] => destruct b eqn:?
         end.

(** What one settlement does to a live loop with nothing else pending. *)
Lemma resume_shape now e r st :
  st.(isMounted) = true -> st.(navTimer) = None -> st.(pollTimer) = None ->
  let st' := pollResume now e r st in
  st'.(startTime) = st.(startTime) /\ st'.(clock) = now /\
  st'.(isMounted) = true /\ st'.(inFlight) = None /\
  ((st'.(pollTimer) = Some (now + 2000) /\ st'.(navTimer) = None /\
    count_nav st'.(log) = count_nav st.(log))
   \/ (exists s, st'.(pollTimer) = None /\ st'.(navTimer) = Some (now + 500, s) /\
       count_nav st'.(log) = count_nav st.(log))
   \/ (st'.(pollTimer) = None /\ st'.(navTimer) = None /\
       exists m s, st'.(log) = st.(log) ++ [Toast m; Navigate s])).
Proof.
  destruct st as [mo st0 pr pt fl nt ck lg]; simpl; intros -> -> ->.
  destruct r as [[s|] [m|] | [c|]]; unfold pollResume, pollCatch; simpl;
    split_ifs; simpl;
    repeat split; eauto;
    try (left; repeat split; reflexivity);
    try (right; left; eexists; split; [reflexivity|]; split; [reflexivity|];
         unfold count_nav; rewrite ?filter_app, ?length_app; simpl; lia);
    try (right; right; repeat split; eauto).
Qed.

Section Termination.
Variables lat late : nat -> Z.
Variable res : nat -> query_result.
Hypothesis lat_nonneg : forall k, 0 <= lat k.
Hypothesis late_nonneg : forall k, 0 <= late k.

Lemma drive_step_eq fuel k st ev k' st' :
  next_event lat late res k st = Some (ev, k') -> step st ev = Some st' ->
  drive lat late res (S fuel) k st = drive lat late res fuel k' st'.
Proof. intros H1 H2. simpl. rewrite H1, H2. reflexivity. Qed.

Lemma flight_from_poll n : poll_ok lat late res n -> flight_ok lat late res n.
Proof.
  intros IH fuel k st e Hf (Hm & Hp & Hi & Hn & Hc & Ht).
  destruct fuel as [|fuel]; [lia|].
  pose proof (lat_nonneg k) as Hl.
  set (now := clock st + lat k).
  rewrite (drive_step_eq fuel k st (Settle now (res k)) (S k) (pollResume now e (res k) st))
    by (unfold next_event, step; rewrite Hi; reflexivity).
  destruct (resume_shape now e (res k) st Hm Hn Hp)
    as (Hs & Hck & Hm' & Hi' & [(Hp' & Hn' & Hc') | [(s & Hp' & Hn' & Hc') | (Hp' & Hn' & m & s & Hl')]]);
    set (st' := pollResume now e (res k) st) in *.
  - apply (IH fuel (S k) _ (now + 2000)); [lia|].
    unfold good_poll. rewrite Hm', Hp', Hi', Hn', Hc', Hc, Hck, Hs.
    repeat split; unfold now in *; lia.
  - destruct fuel as [|fuel]; [lia|].
    rewrite (drive_step_eq fuel (S k) st' (FireNav (now + 500)) (S k)
               (emit (set_clock (set_navTimer st' None) (now + 500)) [Navigate s])).
    + rewrite drive_quiescent by (repeat split; simpl; auto).
      split; [repeat split; simpl; auto|].
      exists (log st'), s. split; [reflexivity|]. rewrite Hc'. exact Hc.
    + unfold next_event. rewrite Hi', Hp', Hn'. reflexivity.
    + unfold step. rewrite Hn'. simpl. rewrite Hm'. reflexivity.
  - rewrite drive_quiescent by (repeat split; auto).
    split; [repeat split; auto|].
    exists (log st ++ [Toast m]), s. split.
    + rewrite Hl', <- app_assoc. reflexivity.
    + rewrite count_nav_app, Hc. reflexivity.
Qed.

Lemma poll_ok_all n : poll_ok lat late res n.
Proof.
  induction n as [|n IH]; intros fuel k st t Hf (Hm & Hp & Hi & Hn & Hc & Hck & Ht);
    (destruct fuel as [|fuel]; [lia|]); simpl; unfold next_event;
    rewrite Hi, Hp; simpl; rewrite Hp; unfold pollStatus; simpl;
    rewrite Hm; simpl; pose proof (late_nonneg k).
  - destruct (60000 <? t + late k - startTime st) eqn:E.
    + rewrite drive_quiescent by (repeat split; auto).
      split; [repeat split; auto|].
      exists (log st ++ [Toast msg_timeout]), scr_scan_error. split.
      * simpl. rewrite <- app_assoc. reflexivity.
      * rewrite count_nav_app, Hc. reflexivity.
    + apply Z.ltb_ge in E. lia.
  - destruct (60000 <? t + late k - startTime st) eqn:E.
    + rewrite drive_quiescent by (repeat split; auto).
      split; [repeat split; auto|].
      exists (log st ++ [Toast msg_timeout]), scr_scan_error. split.
      * simpl. rewrite <- app_assoc. reflexivity.
      * rewrite count_nav_app, Hc. reflexivity.
    + apply (flight_from_poll n IH fuel k _ (t + late k - startTime st)); [lia|].
      unfold good_flight.
      cbn [isMounted pollTimer inFlight navTimer log clock startTime
           emit set_inFlight set_clock set_pollTimer].
      repeat split; auto; [rewrite count_nav_app, Hc; reflexivity | lia].
Qed.
End Termination.

Lemma exec_quiescent st evs st' :
  quiescent st -> exec st evs = Some st' -> quiescent st' /\ st'.(log) = st.(log).
Proof.
  revert st. induction evs as [|ev evs IH]; intros st Hq He; simpl in He.
  - injection He as <-. auto.
  - destruct Hq as (Hp & Hi & Hn).
    destruct ev; simpl in He; rewrite ?Hp, ?Hi, ?Hn in He; try discriminate.
    apply IH in He; [destruct He as [Hq' Hl]; split; [exact Hq'| exact Hl]|].
    repeat split; simpl; auto.
Qed.

Lemma start_eq t0 : start t0 = mk_loop true t0 0 None (Some 0) None t0 [Query].
Proof.
  unfold start, pollStatus. cbn [set_clock isMounted startTime negb].
  rewrite Z.sub_diag. reflexivity.
Qed.

Lemma start_flight t0 : good_flight (start t0) 0 30.
Proof. rewrite start_eq. repeat split; cbn; lia. Qed.

(** C1: driven by any sequence of status responses (any settlement of each
    query after any non-negative latency, any non-negative lateness of the
    2000 ms timers), the loop started on a bound report ends after at most
    64 scheduled tasks in a state with nothing pending; its log holds
    exactly one terminal navigation, as its last effect, and no later event
    adds any effect. *)
Theorem poll_terminal_exactly_once (lat late : nat -> Z) (res : nat -> query_result)
  (t0 : Z) (Hlat : forall k, 0 <= lat k) (Hlate : forall k, 0 <= late k) :
  let st := drive lat late res 64 0 (start t0) in
  quiescent st /\ count_nav st.(log) = 1%nat /\
  (exists pre s, st.(log) = pre ++ [Navigate s]) /\
  (forall evs st', exec st evs = Some st' -> st'.(log) = st.(log)).
Proof.
  intros st.
  assert (H : terminal_ok st).
  { apply (flight_from_poll lat late res Hlat 30
             (poll_ok_all lat late res Hlat Hlate 30) 64%nat 0%nat (start t0) 0);
      [lia | apply start_flight]. }
  destruct H as [Hq (pre & s & Hl & Hc)].
  split; [exact Hq|]. split; [|split].
  - rewrite Hl, count_nav_app, Hc. reflexivity.
  - exists pre, s. exact Hl.
  - intros evs st' He. apply (exec_quiescent st evs st' Hq He).
Qed.

Lemma poll_terminal_exactly_once_witness :
  (forall k : nat, 0 <= (fun _ => 0) k) /\ (forall k : nat, 0 <= (fun _ => 3) k) /\
  count_nav (drive (fun _ => 0) (fun _ => 3) (fun _ => Resolved (Some "processing") None)
               64 0 (start 0)).(log) = 1%nat.
Proof.
  split; [intros; lia|]. split; [intros; lia|].
  apply (poll_terminal_exactly_once (fun _ => 0) (fun _ => 3)
           (fun _ => Resolved (Some "processing") None) 0); intros; lia.
Defined.

(** *** Invariant of the reachable states *)

Lemma estimatedProgress_mono a b : a <= b -> estimatedProgress a <= estimatedProgress b.
Proof.
  intros H. unfold estimatedProgress.
  apply Z.max_le_compat_r, Z.min_le_compat_r, Z.div_le_mono; lia.
Qed.

Lemma estimatedProgress_bounds e : 10 <= estimatedProgress e <= 90.
Proof. unfold estimatedProgress. lia. Qed.

(** What one settlement does to the fields, whatever the state. *)
Lemma resume_fields now e r st :
  let st' := pollResume now e r st in
  st'.(startTime) = st.(startTime) /\ st'.(clock) = now /\ st'.(inFlight) = None /\
  st'.(isMounted) = st.(isMounted) /\
  ((st'.(progress) = st.(progress) /\ st'.(navTimer) = st.(navTimer) /\
    (st'.(pollTimer) = st.(pollTimer) \/ st'.(pollTimer) = Some (now + 2000)))
   \/ (st'.(progress) = estimatedProgress e /\ st'.(navTimer) = st.(navTimer) /\
       st'.(pollTimer) = Some (now + 2000))
   \/ (st'.(progress) = st.(progress) /\ st'.(pollTimer) = st.(pollTimer) /\
       exists s, st'.(navTimer) = Some (now + 500, s))
   \/ (st'.(progress) = 100 /\ st'.(pollTimer) = st.(pollTimer) /\
       (exists s, st'.(navTimer) = Some (now + 500, s)) /\
       exists s msg, r = Resolved (Some s) msg /\ toLowerCase s = "completed")).
Proof.
  destruct st as [mo st0 pr pt fl nt ck lg].
  destruct r as [[s|] [m|] | [c|]]; unfold pollResume, pollCatch; cbn;
    split_ifs; cbn; repeat split;
    first
      [ left; split; [reflexivity|]; split; [reflexivity|];
        first [left; reflexivity | right; reflexivity]
      | right; left; split; [reflexivity|]; split; reflexivity
      | right; right; left; split; [reflexivity|]; split; [reflexivity|];
        eexists; reflexivity
      | right; right; right; split; [reflexivity|]; split; [reflexivity|];
        split; [eexists; reflexivity|];
        eexists _, _; split; [reflexivity|]; apply String.eqb_eq; assumption ].
Qed.

Lemma inv_start t0 : Inv (start t0).
Proof.
  rewrite start_eq. unfold Inv; cbn.
  split; [right; reflexivity|]. split; [|split; [|split]].
  - intros e He. injection He as <-. pose proof (estimatedProgress_bounds 0). lia.
  - intros t Ht. discriminate.
  - intros H. discriminate.
  - intros n Hn. discriminate.
Qed.

Lemma inv_step st ev st' :
  Inv st -> admissible st ev -> step st ev = Some st' -> Inv st'.
Proof.
  intros (I1 & I2 & I3 & I4 & I5) (A1 & A2 & A3) Hs.
  destruct ev as [now | now r | now |]; simpl in Hs.
  - (* FirePoll *)
    destruct (pollTimer st) as [t|] eqn:Hp; [|discriminate].
    injection Hs as <-.
    assert (Ht : t <= now) by (eapply A2; eauto).
    assert (Hi : inFlight st = None) by (destruct I1; congruence).
    assert (Hpr : progress st <> 100) by (intros H; destruct (I4 H); discriminate).
    pose proof (I3 t eq_refl) as Hle.
    assert (Hn : navTimer st = None)
      by (destruct (navTimer st) eqn:E; [destruct (I5 _ eq_refl); congruence | reflexivity]).
    destruct st as [mo st0 pr pt fl nt ck lg]; cbn in *; subst.
    assert (Hm : estimatedProgress (t - st0) <= estimatedProgress (now - st0))
      by (apply estimatedProgress_mono; lia).
    unfold pollStatus; cbn.
    destruct mo; cbn; [destruct (60000 <? now - st0) eqn:E; cbn|];
      unfold Inv; cbn;
      (split; [first [left; reflexivity | right; reflexivity] |]);
      (split; [intros e He; first [discriminate | injection He as <-; split; lia] |]);
      (split; [intros ? He; discriminate |]);
      (split; [intros Hh; first [contradiction | split; reflexivity] |]);
      intros ? He; discriminate.
  - (* Settle *)
    destruct (inFlight st) as [e|] eqn:Hi; [|discriminate].
    injection Hs as <-.
    pose proof (A1 now eq_refl) as Hnow. cbn in Hnow.
    assert (Hp : pollTimer st = None) by (destruct I1; congruence).
    assert (Hpr0 : progress st <> 100) by (intros H; destruct (I4 H); discriminate).
    destruct (I2 e eq_refl) as [Hpe Hse].
    pose proof (estimatedProgress_bounds e) as Hb.
    assert (Hm : estimatedProgress e <= estimatedProgress (now + 2000 - startTime st))
      by (apply estimatedProgress_mono; lia).
    assert (Hn : navTimer st = None)
      by (destruct (navTimer st) eqn:E; [destruct (I5 _ eq_refl); congruence | reflexivity]).
    destruct (resume_fields now e r st)
      as (Hs & Hc & Hi' & Hmo & [(Hpr & Hn' & [Hp' | Hp']) |
                                [(Hpr & Hn' & Hp') |
                                 [(Hpr & Hp' & s & Hn') | (Hpr & Hp' & (s & Hn') & _)]]]);
      set (st' := pollResume now e r st) in *;
      unfold Inv; rewrite Hi', Hs; rewrite ?Hp', ?Hn', ?Hp, ?Hn, ?Hpr;
      (split; [left; reflexivity |]);
      (split; [intros ? He; discriminate |]);
      (split; [intros ? He; first [discriminate | injection He as <-; lia] |]);
      (split; [intros Hh; first [contradiction | lia | split; reflexivity] |]);
      intros ? He; first [discriminate | split; reflexivity].
  - (* FireNav *)
    destruct (navTimer st) as [[t s]|] eqn:Hn; [|discriminate].
    injection Hs as <-.
    destruct (I5 _ eq_refl) as [Hi Hp].
    destruct st as [mo st0 pr pt fl nt ck lg]; cbn in *; subst.
    destruct mo; cbn; unfold Inv; cbn;
      (split; [left; reflexivity |]);
      (split; [intros ? He; discriminate |]);
      (split; [intros ? He; discriminate |]);
      (split; [intros Hh; split; reflexivity |]);
      intros ? He; discriminate.
  - (* Cleanup *)
    injection Hs as <-.
    destruct st as [mo st0 pr pt fl nt ck lg]; cbn in *.
    unfold Inv; cbn.
    split; [right; reflexivity |].
    split; [exact I2 |].
    split; [intros ? He; discriminate |].
    split; [intros Hh; split; [apply (I4 Hh) | reflexivity] |].
    intros n Hn; split; [apply (I5 n Hn) | reflexivity].
Qed.

Lemma reachable_inv st : reachable st -> Inv st.
Proof.
  induction 1; [apply inv_start | eapply inv_step; eauto].
Qed.

(** *** Claims about single steps of the loop *)


Lemma pollStatus_progress now st : (pollStatus now st).(progress) = st.(progress).
Proof.
  unfold pollStatus; cbn. destruct (isMounted st); cbn; [|reflexivity].
  destruct (60000 <? now - startTime st); reflexivity.
Qed.

Lemma pollResume_queries now e r st :
  count_query (pollResume now e r st).(log) = count_query st.(log).
Proof.
  destruct st as [mo st0 pr pt fl nt ck lg].
  destruct r as [[s|] [m|] | [c|]]; unfold pollResume, pollCatch; cbn;
    split_ifs; cbn; unfold count_query; rewrite ?filter_app, ?length_app; cbn; lia.
Qed.

Lemma step_queries st ev st' :
  step st ev = Some st' -> count_query st'.(log) <> count_query st.(log) ->
  exists now, ev = FirePoll now /\ now - st.(startTime) <= 60000.
Proof.
  intros Hs Hq. destruct ev as [now | now r | now |]; simpl in Hs.
  - destruct (pollTimer st); [|discriminate]. injection Hs as <-.
    exists now. split; [reflexivity|].
    destruct st as [mo st0 pr pt fl nt ck lg]; unfold pollStatus in Hq; cbn in Hq.
    destruct mo; cbn in Hq; [|contradiction].
    destruct (60000 <? now - st0) eqn:E.
    + cbn in Hq. unfold count_query in Hq. rewrite filter_app, length_app in Hq. cbn in Hq. lia.
    + apply Z.ltb_ge in E. cbn. lia.
  - destruct (inFlight st); [|discriminate]. injection Hs as <-.
    rewrite pollResume_queries in Hq. contradiction.
  - destruct (navTimer st) as [[t s]|]; [|discriminate]. injection Hs as <-.
    destruct st as [mo st0 pr pt fl nt ck lg]; destruct mo; cbn in Hq;
      unfold count_query in Hq; rewrite ?filter_app, ?length_app in Hq; cbn in Hq; lia.
  - injection Hs as <-. contradiction.
Qed.

(** Cancellation does suppress a settlement that is not a 404/400
    rejection: nothing observable changes. *)
Lemma cancel_suppresses_nonfatal now e r st :
  st.(isMounted) = false ->
  (forall c, r = Rejected (Some c) -> c <> 404 /\ c <> 400) ->
  let st' := pollResume now e r st in
  st'.(progress) = st.(progress) /\ st'.(log) = st.(log) /\
  st'.(pollTimer) = st.(pollTimer) /\ st'.(navTimer) = st.(navTimer).
Proof.
  destruct st as [mo st0 pr pt fl nt ck lg]; cbn; intros -> Hr.
  destruct r as [[s|] [m|] | [c|]]; unfold pollResume, pollCatch; cbn;
    try (repeat split; reflexivity).
  destruct (Hr c eq_refl) as [H1 H2].
  apply Z.eqb_neq in H1, H2. rewrite H1, H2. cbn. repeat split.
Qed.

(** C2 (code_bug): the component unmounts (effect cleanup) while the first
    query is in flight, and that query then rejects with HTTP 404: the
    [catch] block still toasts and calls [setCurrentScreen('scan-error')],
    because its fatal branch does not test [isMounted]. *)
Theorem poll_cancel_then_fatal_navigates :
  exec (start 0) [Cleanup; Settle 300 (Rejected (Some 404))]
  = Some (mk_loop false 0 0 None None None 300
                  [Query; Toast msg_fatal; Navigate scr_scan_error]).
Proof. reflexivity. Qed.

(** C3: when the [pollStatus] timer fires on a live loop more than
    60,000 ms after the start, whatever the state, the loop toasts the
    timeout and navigates to its terminal screen without issuing a query,
    and leaves no timer behind; conversely every query is issued by a
    [pollStatus] run whose elapsed time passed the check. *)
Theorem poll_timeout_checked_before_query st now t :
  st.(isMounted) = true -> st.(pollTimer) = Some t -> 60000 < now - st.(startTime) ->
  (exists st', step st (FirePoll now) = Some st' /\
     st'.(log) = st.(log) ++ [Toast msg_timeout; Navigate scr_scan_error] /\
     st'.(inFlight) = st.(inFlight) /\ st'.(pollTimer) = None /\
     st'.(navTimer) = st.(navTimer) /\ st'.(progress) = st.(progress)) /\
  (forall st0 ev st1, step st0 ev = Some st1 ->
     count_query st1.(log) <> count_query st0.(log) ->
     exists now', ev = FirePoll now' /\ now' - st0.(startTime) <= 60000).
Proof.
  intros Hm Hp Ht. split.
  - simpl. rewrite Hp. eexists. split; [reflexivity|].
    unfold pollStatus. cbn. rewrite Hm. cbn.
    replace (60000 <? now - startTime st) with true by (symmetry; apply Z.ltb_lt; lia).
    cbn. repeat split.
  - apply step_queries.
Qed.

Lemma poll_timeout_checked_before_query_witness :
  let st := mk_loop true 0 40 (Some 60500) None None 60000 [Query] in
  isMounted st = true /\ pollTimer st = Some 60500 /\ 60000 < 61000 - startTime st /\
  exists st', step st (FirePoll 61000) = Some st' /\
     st'.(log) = st.(log) ++ [Toast msg_timeout; Navigate scr_scan_error].
Proof.
  intros st. split; [reflexivity|]. split; [reflexivity|]. split; [vm_compute; reflexivity|].
  destruct (poll_timeout_checked_before_query st 61000 60500 eq_refl eq_refl
              ltac:(vm_compute; reflexivity)) as [(st' & H1 & H2 & _) _].
  exists st'. split; assumption.
Defined.





(** C7: a rejection that is not a 404/400 (no HTTP status, or another one)
    on a live loop changes neither progress nor the pending navigation and
    emits no toast or navigation; it schedules a retry 2000 ms later, and
    that retry still goes through the timeout check: fired more than
    60,000 ms after the start it ends the loop with the timeout toast and
    navigation instead of a query. *)
Theorem poll_transient_retry st now e code :
  st.(isMounted) = true -> st.(inFlight) = Some e ->
  (forall c, code = Some c -> c <> 404 /\ c <> 400) ->
  exists st', step st (Settle now (Rejected code)) = Some st' /\
    st'.(progress) = st.(progress) /\ st'.(log) = st.(log) /\
    st'.(navTimer) = st.(navTimer) /\ st'.(pollTimer) = Some (now + 2000) /\
    st'.(isMounted) = true /\ st'.(startTime) = st.(startTime) /\
    (forall now', 60000 < now' - st.(startTime) ->
       exists st'', step st' (FirePoll now') = Some st'' /\
         st''.(log) = st.(log) ++ [Toast msg_timeout; Navigate scr_scan_error] /\
         st''.(pollTimer) = None /\ st''.(inFlight) = None).
Proof.
  intros Hm Hi Hc. unfold step. rewrite Hi.
  assert (Hr : pollResume now e (Rejected code) st
               = set_pollTimer (set_clock (set_inFlight st None) now) (Some (now + 2000))).
  { unfold pollResume, pollCatch. destruct code as [c|].
    - destruct (Hc c eq_refl) as [H1 H2]. apply Z.eqb_neq in H1, H2.
      rewrite H1, H2. cbn. rewrite Hm. reflexivity.
    - cbn. rewrite Hm. reflexivity. }
  rewrite Hr. eexists. split; [reflexivity|]. cbn.
  do 6 (split; [first [reflexivity | assumption]|]).
  intros now' Ht. eexists. split; [reflexivity|].
  unfold pollStatus. cbn. rewrite Hm. cbn.
  replace (60000 <? now' - startTime st) with true by (symmetry; apply Z.ltb_lt; lia).
  cbn. repeat split.
Qed.

Lemma poll_transient_retry_witness :
  exists st', step (start 0) (Settle 1500 (Rejected None)) = Some st' /\
    st'.(pollTimer) = Some 3500 /\ st'.(log) = [Query].
Proof.
  destruct (poll_transient_retry (start 0) 1500 0 None eq_refl
              ltac:(vm_compute; reflexivity) ltac:(intros c Hc; discriminate))
    as (st' & H1 & _ & H2 & _ & H3 & _).
  exists st'. split; [exact H1|]. split; [exact H3 | exact H2].
Defined.

(** C8: in a reachable state with a query in flight, a rejection with
    [error.status] 404 or 400 toasts and navigates to the terminal screen at
    once, leaves nothing pending, and no run of events from there issues
    another query. *)
Theorem poll_fatal_stops st now c :
  reachable st -> st.(inFlight) <> None -> (c = 404 \/ c = 400) ->
  exists st', step st (Settle now (Rejected (Some c))) = Some st' /\
    st'.(log) = st.(log) ++ [Toast msg_fatal; Navigate scr_scan_error] /\
    quiescent st' /\
    (forall evs st'', exec st' evs = Some st'' ->
       count_query st''.(log) = count_query st'.(log)).
Proof.
  intros Hr Hi Hc.
  destruct (reachable_inv st Hr) as (I1 & I2 & I3 & I4 & I5).
  destruct (inFlight st) as [e|] eqn:He; [|contradiction].
  assert (Hp : pollTimer st = None) by (destruct I1; congruence).
  assert (Hn : navTimer st = None)
    by (destruct (navTimer st) eqn:E; [destruct (I5 _ eq_refl); congruence | reflexivity]).
  unfold step. rewrite He. eexists. split; [reflexivity|].
  assert (Hb : ((c =? 404) || (c =? 400))%bool = true)
    by (apply orb_true_iff; destruct Hc as [-> | ->]; [left | right]; reflexivity).
  unfold pollResume, pollCatch. cbn. rewrite Hb. cbn.
  split; [reflexivity|].
  assert (Hq : quiescent (emit (set_clock (set_inFlight st None) now)
                               [Toast msg_fatal; Navigate scr_scan_error]))
    by (unfold quiescent; cbn; rewrite Hp, Hn; repeat split).
  split; [exact Hq|].
  intros evs st'' Hx. destruct (exec_quiescent _ evs st'' Hq Hx) as [_ ->]. reflexivity.
Qed.

Lemma poll_fatal_stops_witness :
  exists st', step (start 0) (Settle 800 (Rejected (Some 404))) = Some st' /\
    st'.(log) = [Query; Toast msg_fatal; Navigate scr_scan_error].
Proof.
  destruct (poll_fatal_stops (start 0) 800 404 (reach_start 0)
              ltac:(vm_compute; discriminate) ltac:(left; reflexivity))
    as (st' & H1 & H2 & _).
  exists st'. split; [exact H1|]. rewrite H2. reflexivity.
Defined.

(** C4, counterexample: the run that times out (every answer
    "processing") and the run whose first answer is "failed" end on the
    same terminal navigation, [setCurrentScreen('scan-error')]. *)
Lemma poll_timeout_same_terminal_as_failed :
  let timed_out := drive (fun _ => 0) (fun _ => 0)
                         (fun _ => Resolved (Some "processing") None) 64 0 (start 0) in
  let failed := drive (fun _ => 0) (fun _ => 0)
                      (fun _ => Resolved (Some "failed") None) 64 0 (start 0) in
  last timed_out.(log) Query = Navigate scr_scan_error /\
  last failed.(log) Query = Navigate scr_scan_error /\
  last timed_out.(log) Query = last failed.(log) Query.
Proof. vm_compute. repeat split. Qed.

(** C4, as amended: the timeout, a 404/400 rejection and a server-reported
    "failed" status all end on the same terminal screen "scan-error"; they
    differ only in the toast: the fixed timeout message, the fixed fatal
    message, and the server's [error_message] (or a fixed fallback). *)
Theorem poll_terminal_outcomes st now now' e s msg c :
  st.(isMounted) = true -> 60000 < now - st.(startTime) ->
  st.(inFlight) = Some e -> toLowerCase s = "failed" -> (c = 404 \/ c = 400) ->
  (pollStatus now st).(log) = st.(log) ++ [Toast msg_timeout; Navigate scr_scan_error] /\
  (pollResume now' e (Rejected (Some c)) st).(log)
    = st.(log) ++ [Toast msg_fatal; Navigate scr_scan_error] /\
  (exists text,
     (pollResume now' e (Resolved (Some s) msg) st).(log) = st.(log) ++ [Toast text] /\
     (pollResume now' e (Resolved (Some s) msg) st).(navTimer)
       = Some (now' + 500, scr_scan_error) /\
     text = match msg with
            | Some m => if String.eqb m "" then msg_failed else m
            | None => msg_failed
            end).
Proof.
  intros Hm Ht Hi Hs Hc. split; [|split].
  - unfold pollStatus. cbn. rewrite Hm. cbn.
    replace (60000 <? now - startTime st) with true by (symmetry; apply Z.ltb_lt; lia).
    reflexivity.
  - assert (Hb : ((c =? 404) || (c =? 400))%bool = true)
      by (apply orb_true_iff; destruct Hc as [-> | ->]; [left | right]; reflexivity).
    unfold pollResume, pollCatch. cbn. rewrite Hb. reflexivity.
  - eexists. unfold pollResume. cbn. rewrite Hm, Hs. cbn.
    split; [reflexivity|]. split; reflexivity.
Qed.

Lemma poll_terminal_outcomes_witness :
  let st := mk_loop true 0 10 None (Some 0) None 0 [Query] in
  (pollStatus 61000 st).(log) = [Query; Toast msg_timeout; Navigate scr_scan_error] /\
  (pollResume 500 0 (Rejected (Some 404)) st).(log)
    = [Query; Toast msg_fatal; Navigate scr_scan_error].
Proof.
  intros st.
  destruct (poll_terminal_outcomes st 61000 500 0 "FAILED" (Some "OCR failed") 404
              eq_refl ltac:(vm_compute; reflexivity) eq_refl eq_refl
              ltac:(left; reflexivity)) as (H1 & H2 & _).
  split; [exact H1 | exact H2].
Defined.

End PollProofs.

(* ------------------------------------------------------------------ *)
(** ** Proofs about the session and navigation state *)

Module AppProofs.
Import App.

Example mount_writes_nothing :
  (mount [(key_screen, "history")]).(store) = [(key_screen, "history")].
Proof. reflexivity. Qed.

Example no_session_onboarding :
  (initializeAuth false (mount [(key_screen, "history")])).(currentScreen) = scr_onboarding.
Proof. reflexivity. Qed.

Lemma getItem_removeItem k k' s :
  getItem k (removeItem k' s) = if String.eqb k k' then None else getItem k s.
Proof.
  induction s as [|[k'' v] s IH]; simpl.
  - destruct (String.eqb k k'); reflexivity.
  - unfold removeItem in *. simpl.
    destruct (String.eqb k' k'') eqn:E1; simpl.
    + apply String.eqb_eq in E1. subst k''.
      rewrite IH. destruct (String.eqb k k'); reflexivity.
    + destruct (String.eqb k k'') eqn:E2.
      * apply String.eqb_eq in E2. subst k''.
        destruct (String.eqb k k') eqn:E3; [|reflexivity].
        apply String.eqb_eq in E3. subst. rewrite String.eqb_refl in E1. discriminate.
      * exact IH.
Qed.

Lemma getItem_setItem k k' v s :
  getItem k (setItem k' v s) = if String.eqb k k' then Some v else getItem k s.
Proof.
  unfold setItem. simpl. rewrite getItem_removeItem.
  destruct (String.eqb k k'); reflexivity.
Qed.

Lemma key_tab_screen : String.eqb key_screen key_tab = false.
Proof. reflexivity. Qed.

Lemma persist_screen st :
  getItem key_screen (persist st) =
  if st.(isLoggedIn) && negb (is_auth_screen st.(currentScreen))
  then Some st.(currentScreen) else getItem key_screen st.(store).
Proof.
  unfold persist.
  destruct (isLoggedIn st && truthy (activeTab st));
    [rewrite getItem_setItem, key_tab_screen|];
    (destruct (isLoggedIn st && negb (is_auth_screen (currentScreen st)));
     [rewrite getItem_setItem, String.eqb_refl|]; reflexivity).
Qed.

Lemma persist_ok st : saved_screen_ok st.(store) -> saved_screen_ok (persist st).
Proof.
  unfold saved_screen_ok. intros H v. rewrite persist_screen.
  destruct (isLoggedIn st && negb (is_auth_screen (currentScreen st))) eqn:E; [|apply H].
  intros Hv. injection Hv as <-. apply andb_true_iff in E as [_ E].
  apply negb_true_iff in E. exact E.
Qed.

Lemma commit_store st : (commit st).(store) = st.(store) \/ (commit st).(store) = persist st.
Proof.
  unfold commit. destruct (lastDeps st) as [d|]; [destruct (deps_eqb _ _)|]; cbn; auto.
Qed.

Lemma commit_ok st : saved_screen_ok st.(store) -> saved_screen_ok (commit st).(store).
Proof.
  intros H. destruct (commit_store st) as [-> | ->]; [exact H | apply persist_ok, H].
Qed.

Lemma restore_store b st : (restore b st).(store) = st.(store).
Proof.
  unfold restore.
  destruct (getItem key_screen (store st)) as [sc|];
    [destruct (truthy sc && negb (is_auth_screen sc));
     [destruct (getItem key_tab (store st)) as [tb|]; [destruct (truthy tb)|]|]|];
    destruct b; reflexivity.
Qed.

Lemma app_step_ok st ev : saved_screen_ok st.(store) -> saved_screen_ok (app_step st ev).(store).
Proof.
  intros H. destruct ev as [valid | up | | | sc | tb]; simpl.
  - unfold initializeAuth. destruct valid; apply commit_ok; [rewrite restore_store|];
      apply commit_ok || idtac; exact H.
  - destruct up; [apply commit_ok; rewrite restore_store|]; apply commit_ok; exact H.
  - unfold onSignedOut. apply commit_ok. cbn [store set_store set_tab set_screen set_loggedIn].
    intros v.
    rewrite getItem_removeItem, key_tab_screen, getItem_removeItem, String.eqb_refl.
    discriminate.
  - apply commit_ok; exact H.
  - apply commit_ok; exact H.
  - apply commit_ok; exact H.
Qed.

Lemma app_run_ok st evs : saved_screen_ok st.(store) -> saved_screen_ok (app_run st evs).(store).
Proof.
  unfold app_run. revert st. induction evs as [|ev evs IH]; intros st H; simpl.
  - exact H.
  - apply IH, app_step_ok, H.
Qed.

Lemma mount_eq stored :
  mount stored = mk_app scr_splash "home" false stored (Some (scr_splash, "home", false)).
Proof. reflexivity. Qed.

(** The parts of the start-up and sign-out behaviour that hold: with a
    valid session a stored non-auth screen is restored and an auth-only
    one gives "home"; without one the app routes to onboarding; sign-out
    clears both keys and routes to onboarding. *)
Lemma commit_screen st : (commit st).(currentScreen) = st.(currentScreen).
Proof. unfold commit. destruct (lastDeps st); [destruct (deps_eqb _ _)|]; reflexivity. Qed.

Lemma login_commit stored :
  commit (set_loggedIn (mount stored) true)
  = mk_app scr_splash "home" true (setItem key_tab "home" stored) (Some (scr_splash, "home", true)).
Proof. reflexivity. Qed.

Lemma app_init_screen stored :
  (initializeAuth false (mount stored)).(currentScreen) = scr_onboarding /\
  (forall v, getItem key_screen stored = Some v -> truthy v = true ->
     (initializeAuth true (mount stored)).(currentScreen)
     = if is_auth_screen v then scr_home else v).
Proof.
  split; [reflexivity|]. intros v Hv Ht.
  change (initializeAuth true (mount stored))
    with (commit (restore false (commit (set_loggedIn (mount stored) true)))).
  rewrite login_commit, commit_screen.
  assert (Hg : getItem key_screen (setItem key_tab "home" stored) = Some v)
    by (rewrite getItem_setItem, key_tab_screen; exact Hv).
  unfold restore. cbn [store]. rewrite Hg, Ht.
  destruct (is_auth_screen v); cbn [negb andb]; [reflexivity|].
  destruct (getItem key_tab (setItem key_tab "home" stored)) as [tb|];
    [destruct (truthy tb)|]; reflexivity.
Qed.

Lemma commit_fields st :
  (commit st).(currentScreen) = st.(currentScreen) /\
  (commit st).(activeTab) = st.(activeTab) /\ (commit st).(isLoggedIn) = st.(isLoggedIn).
Proof.
  unfold commit. destruct (lastDeps st); [destruct (deps_eqb _ _)|]; repeat split.
Qed.

Lemma app_signed_out st :
  let st' := onSignedOut st in
  st'.(currentScreen) = scr_onboarding /\ st'.(activeTab) = "home" /\
  st'.(isLoggedIn) = false /\
  getItem key_screen st'.(store) = None /\ getItem key_tab st'.(store) = None.
Proof.
  unfold onSignedOut.
  set (st0 := set_store _ _).
  assert (Hs : (commit st0).(store) = st0.(store)).
  { destruct (commit_store st0) as [H | H]; rewrite H; [reflexivity|].
    unfold persist. reflexivity. }
  destruct (commit_fields st0) as (H1 & H2 & H3).
  cbv zeta. rewrite H1, H2, H3, Hs.
  unfold st0. cbn [store set_store currentScreen activeTab isLoggedIn set_tab set_screen set_loggedIn].
  repeat split.
  - rewrite getItem_removeItem, key_tab_screen, getItem_removeItem, String.eqb_refl. reflexivity.
  - rewrite getItem_removeItem, String.eqb_refl. reflexivity.
Qed.

(** C9 (code_bug): with a valid session and the entries
    [mediguide_current_screen = "history"], [mediguide_active_tab = "history"]
    left by the last visit, start-up restores the screen but not the tab:
    the persistence effect, run when [isLoggedIn] turns true, overwrites the
    stored tab with the default "home" before [initializeAuth] reads it. *)
Theorem app_restore_loses_saved_tab :
  let st := initializeAuth true (mount [(key_screen, "history"); (key_tab, "history")]) in
  st.(currentScreen) = "history" /\ st.(activeTab) = "home" /\
  getItem key_tab st.(store) = Some "home".
Proof. vm_compute. repeat split. Qed.

(** C10: the persistence effect is the only writer of
    [mediguide_current_screen]; it changes that entry only while logged in
    and only to the current screen when that screen is not splash,
    onboarding, login or signup; so from stored entries that name no
    auth-only screen, no run of provider events ever stores one. *)
Theorem app_saved_screen_never_auth stored evs (Hok : saved_screen_ok stored) :
  saved_screen_ok (app_run (mount stored) evs).(store) /\
  (forall st, getItem key_screen (persist st) <> getItem key_screen st.(store) ->
     st.(isLoggedIn) = true /\ is_auth_screen st.(currentScreen) = false /\
     getItem key_screen (persist st) = Some st.(currentScreen)).
Proof.
  split.
  - apply app_run_ok. rewrite mount_eq. exact Hok.
  - intros st Hne. rewrite persist_screen in *.
    destruct (isLoggedIn st && negb (is_auth_screen (currentScreen st))) eqn:E;
      [|contradiction].
    apply andb_true_iff in E as [E1 E2]. apply negb_true_iff in E2.
    repeat split; assumption.
Qed.

Lemma app_saved_screen_never_auth_witness :
  saved_screen_ok [] /\
  saved_screen_ok (app_run (mount []) [Init true; SetCurrentScreen scr_login;
                                       SetCurrentScreen "history"; SignedOut]).(store).
Proof.
  assert (H : saved_screen_ok []) by (intros v Hv; discriminate).
  split; [exact H|].
  apply (app_saved_screen_never_auth [] _ H).
Defined.

End AppProofs.

(* ------------------------------------------------------------------ *)
(** ** Further properties of the poll loop *)

Module PollExtra.
Import Poll PollProofs PollFacts.

Lemma ascii_lower_idem c : ascii_lower (ascii_lower c) = ascii_lower c.
Proof. destruct c as [[] [] [] [] [] [] [] []]; reflexivity. Qed.

Lemma toLowerCase_idem s : toLowerCase (toLowerCase s) = toLowerCase s.
Proof. induction s as [|c s IH]; cbn; [reflexivity|]. rewrite ascii_lower_idem, IH. reflexivity. Qed.

Lemma step_unmounted st ev st' :
  st.(isMounted) = false -> step st ev = Some st' ->
  st'.(isMounted) = false /\ count_query st'.(log) = count_query st.(log) /\
  (st.(inFlight) = None -> st'.(inFlight) = None /\ st'.(log) = st.(log)).
Proof.
  intros Hm Hs. destruct ev as [now | now r | now |]; simpl in Hs.
  - destruct (pollTimer st); [|discriminate]. injection Hs as <-.
    destruct st as [mo st0 pr pt fl nt ck lg]; cbn in Hm; subst mo.
    unfold pollStatus; cbn. repeat split; auto.
  - destruct (inFlight st) as [e|] eqn:Hi; [|discriminate]. injection Hs as <-.
    destruct (resume_fields now e r st) as (_ & _ & _ & Hmo & _).
    rewrite Hmo, pollResume_queries, Hm. split; [reflexivity|]. split; [reflexivity|]. intros Hx; discriminate.
  - destruct (navTimer st) as [[t s]|]; [|discriminate]. injection Hs as <-.
    destruct st as [mo st0 pr pt fl nt ck lg]; cbn in Hm; subst mo; cbn.
    repeat split; auto.
  - injection Hs as <-. destruct st as [mo st0 pr pt fl nt ck lg]; cbn.
    repeat split; auto.
Qed.

Lemma step_progress_range st ev st' :
  step st ev = Some st' ->
  st'.(progress) = st.(progress) \/ st'.(progress) = 100 \/ 10 <= st'.(progress) <= 90.
Proof.
  intros Hs. destruct ev as [now | now r | now |]; simpl in Hs.
  - destruct (pollTimer st); [|discriminate]. injection Hs as <-.
    left. rewrite pollStatus_progress. reflexivity.
  - destruct (inFlight st) as [e|]; [|discriminate]. injection Hs as <-.
    pose proof (estimatedProgress_bounds e).
    destruct (resume_fields now e r st)
      as (_ & _ & _ & _ & [(Hpr & _) | [(Hpr & _) | [(Hpr & _) | (Hpr & _)]]]);
      rewrite Hpr; [left | right; right | left | right; left]; auto.
  - destruct (navTimer st) as [[t s]|]; [|discriminate]. injection Hs as <-.
    left. destruct st as [mo st0 pr pt fl nt ck lg]; destruct mo; reflexivity.
  - injection Hs as <-. left. reflexivity.
Qed.

Ltac proj := cbn [isMounted startTime progress pollTimer inFlight navTimer clock log
                  set_clock set_pollTimer set_inFlight set_navTimer set_progress emit unmount
                  negb andb orb].
Ltac proj_all := cbn [isMounted startTime progress pollTimer inFlight navTimer clock log
                      set_clock set_pollTimer set_inFlight set_navTimer set_progress emit unmount
                      negb andb orb] in *.

Lemma qinv_start t0 : QInv (start t0).
Proof.
  rewrite start_eq. exists 0. proj.
  change (count_query [Query]) with 1%nat.
  repeat split; try lia; try (intros e He; injection He as <-; reflexivity);
    try (intros ? Hx; discriminate).
Qed.

Lemma qinv_step st ev st' :
  QInv st -> admissible st ev -> step st ev = Some st' -> QInv st'.
Proof.
  intros (last & Q1 & Q2 & Q3 & Q4 & Q5) (A1 & A2 & A3) Hs.
  destruct ev as [now | now r | now |]; simpl in Hs.
  - destruct (pollTimer st) as [t|] eqn:Hp; [|discriminate].
    injection Hs as <-.
    assert (Ht : t <= now) by (eapply A2; eauto).
    pose proof (A1 now eq_refl) as Hc. proj_all.
    pose proof (Q5 t eq_refl) as Hl.
    destruct st as [mo st0 pr pt fl nt ck lg]; proj_all.
    unfold pollStatus; proj.
    destruct mo; proj; [destruct (60000 <? now - st0) eqn:E; proj|].
    + exists last. proj. unfold count_query in *. rewrite filter_app, length_app. proj.
      rewrite Nat.add_0_r. repeat split; try lia; try (intros ? Hx; discriminate); auto.
    + apply Z.ltb_ge in E. exists (now - st0). proj.
      unfold count_query in *. rewrite filter_app, length_app. proj.
      cbn [filter is_query length].
      repeat split; try lia; try (intros e He; injection He as <-; reflexivity);
        try (intros ? Hx; discriminate).
    + exists last. proj. repeat split; try lia; try (intros ? Hx; discriminate); auto.
  - destruct (inFlight st) as [e|] eqn:Hi; [|discriminate].
    injection Hs as <-.
    pose proof (A1 now eq_refl) as Hc. proj_all.
    exists last.
    destruct (resume_fields now e r st) as (Hs & Hck & Hi' & _ & Hrest).
    rewrite pollResume_queries, Hs, Hck, Hi'.
    assert (Hp : (pollResume now e r st).(pollTimer) = st.(pollTimer) \/
                 (pollResume now e r st).(pollTimer) = Some (now + 2000))
      by (destruct Hrest as [(_ & _ & H) | [(_ & _ & H) | [(_ & H & _) | (_ & H & _)]]];
          auto).
    repeat split; try lia.
    + intros ? H; discriminate.
    + intros t Ht. destruct Hp as [Hp | Hp]; rewrite Hp in Ht.
      * apply Q5, Ht.
      * injection Ht as <-. lia.
  - destruct (navTimer st) as [[t s]|] eqn:Hn; [|discriminate].
    injection Hs as <-.
    pose proof (A1 now eq_refl) as Hc. proj_all.
    destruct st as [mo st0 pr pt fl nt ck lg]; proj_all.
    exists last. destruct mo; proj;
      [unfold count_query in *; rewrite filter_app, length_app; proj; rewrite Nat.add_0_r|];
      repeat split; try lia; auto.
  - injection Hs as <-.
    destruct st as [mo st0 pr pt fl nt ck lg]; proj_all.
    exists last. proj. repeat split; try lia; try (intros ? Hx; discriminate); auto.
Qed.

Lemma reachable_qinv st : reachable st -> QInv st.
Proof. induction 1; [apply qinv_start | eapply qinv_step; eauto]. Qed.

(** X1: a settled query whose status is missing, or lower-cases to none
    of "processing", "completed" and "failed", makes a live loop schedule
    [pollStatus] again 2000 ms later and changes nothing else: progress,
    log and pending navigation stay as they were. *)
Theorem poll_unknown_status_retries st now e status msg :
  st.(isMounted) = true -> st.(inFlight) = Some e ->
  (forall s, status = Some s ->
     toLowerCase s <> "processing" /\ toLowerCase s <> "completed" /\ toLowerCase s <> "failed") ->
  step st (Settle now (Resolved status msg))
  = Some (set_pollTimer (set_clock (set_inFlight st None) now) (Some (now + 2000))).
Proof.
  intros Hm Hi Hs. unfold step. rewrite Hi. f_equal.
  unfold pollResume. destruct status as [s|].
  - destruct (Hs s eq_refl) as (H1 & H2 & H3).
    apply String.eqb_neq in H1, H2, H3. proj. rewrite Hm. proj.
    rewrite H1, H2, H3. reflexivity.
  - proj. rewrite Hm. proj. unfold pollCatch. proj. rewrite Hm. reflexivity.
Qed.

Lemma poll_unknown_status_retries_witness :
  step (start 0) (Settle 700 (Resolved (Some "Queued") None))
  = Some (set_pollTimer (set_clock (set_inFlight (start 0) None) 700) (Some 2700)).
Proof.
  apply (poll_unknown_status_retries (start 0) 700 0 (Some "Queued") None eq_refl eq_refl).
  intros s Hs. injection Hs as <-.
  split; [|split]; intros Hx; vm_compute in Hx; discriminate.
Defined.

(** X2: the status is matched case-insensitively: a settlement carrying a
    status string has exactly the effect of one carrying its lower-cased
    form. *)
Theorem poll_status_case_insensitive now e s msg st :
  pollResume now e (Resolved (Some s) msg) st
  = pollResume now e (Resolved (Some (toLowerCase s)) msg) st.
Proof. unfold pollResume. cbv beta iota zeta. rewrite toLowerCase_idem. reflexivity. Qed.

(** X3: once the screen has unmounted, the loop never issues another
    query, whatever happens next; and when no query was in flight at that
    point, no later event adds any effect at all (no toast, no
    navigation). *)
Theorem poll_unmounted_silent st evs st' :
  st.(isMounted) = false -> exec st evs = Some st' ->
  count_query st'.(log) = count_query st.(log) /\
  (st.(inFlight) = None -> st'.(log) = st.(log)).
Proof.
  revert st. induction evs as [|ev evs IH]; intros st Hm He; cbn [exec] in He.
  - injection He as <-. split; [reflexivity | intros _; reflexivity].
  - destruct (step st ev) as [st1|] eqn:Hs; [|discriminate].
    destruct (step_unmounted st ev st1 Hm Hs) as (Hm1 & Hq1 & Hf1).
    destruct (IH st1 Hm1 He) as [Hq Hf].
    split; [congruence|]. intros Hi. destruct (Hf1 Hi) as [Hi1 Hl1].
    rewrite (Hf Hi1). exact Hl1.
Qed.

Lemma poll_unmounted_silent_witness :
  exists st', exec (set_pollTimer (unmount (start 0)) None)
                   [Settle 100 (Resolved (Some "processing") None); Cleanup] = Some st' /\
              count_query st'.(log) = 1%nat.
Proof.
  eexists. split; [reflexivity|].
  destruct (poll_unmounted_silent (set_pollTimer (unmount (start 0)) None)
              [Settle 100 (Resolved (Some "processing") None); Cleanup] _ eq_refl eq_refl)
    as [Hq _].
  rewrite Hq. reflexivity.
Defined.

(** X4: along any admissible run (clock never running backwards, timers
    never early), one mount of the screen issues at most 31 status
    queries: two queries are at least 2000 ms apart and none is issued
    more than 60000 ms after the start. *)
Theorem poll_at_most_31_queries st : reachable st -> (count_query st.(log) <= 31)%nat.
Proof.
  intros Hr. destruct (reachable_qinv st Hr) as (last & Q1 & Q2 & _). lia.
Qed.

Lemma poll_at_most_31_queries_witness :
  reachable (start 0) /\ (count_query (start 0).(log) <= 31)%nat.
Proof.
  split; [apply reach_start|]. apply poll_at_most_31_queries, reach_start.
Defined.

(** X5: in every reachable state the progress shown is 0 (before the
    first answer), 100 (after "completed"), or between 10 and 90. *)
Theorem poll_progress_values st :
  reachable st -> st.(progress) = 0 \/ st.(progress) = 100 \/ 10 <= st.(progress) <= 90.
Proof.
  induction 1 as [t0 | st ev st' Hr IH Ha Hs].
  - left. rewrite start_eq. reflexivity.
  - destruct (step_progress_range st ev st' Hs) as [-> | H]; [exact IH | right; exact H].
Qed.

Lemma poll_progress_values_witness :
  reachable (start 0) /\ (start 0).(progress) = 0.
Proof.
  split; [apply reach_start|].
  destruct (poll_progress_values (start 0) (reach_start 0)) as [H | [H | H]];
    [exact H | rewrite start_eq in H; discriminate | rewrite start_eq in H; proj_all; lia].
Defined.

(** X6: after a "completed" answer on a live loop, progress is 100 and the
    500 ms timer navigates to the report result if the screen is still
    mounted when it fires; a cleanup in between suppresses that
    navigation and leaves nothing pending. *)
Theorem poll_completed_navigation st e now now' s msg :
  st.(isMounted) = true -> st.(inFlight) = Some e -> toLowerCase s = "completed" ->
  (exists st2, exec st [Settle now (Resolved (Some s) msg); FireNav now'] = Some st2 /\
     st2.(log) = st.(log) ++ [Navigate scr_report_result] /\ st2.(progress) = 100) /\
  (exists st3, exec st [Settle now (Resolved (Some s) msg); Cleanup; FireNav now'] = Some st3 /\
     st3.(log) = st.(log) /\ st3.(progress) = 100 /\ quiescent st3).
Proof.
  intros Hm Hi Hs.
  assert (Hr : pollResume now e (Resolved (Some s) msg) st
               = set_navTimer (set_progress (set_clock (set_inFlight st None) now) 100)
                              (Some (now + 500, scr_report_result))).
  { unfold pollResume. proj. rewrite Hm. proj. rewrite Hs. reflexivity. }
  cbn [exec step]. rewrite Hi, Hr. proj. rewrite Hm.
  split; eexists; (split; [reflexivity|]); proj; repeat split.
Qed.

Lemma poll_completed_navigation_witness :
  exists st2, exec (start 0) [Settle 800 (Resolved (Some "COMPLETED") None); FireNav 1300]
              = Some st2 /\ st2.(log) = [Query; Navigate scr_report_result].
Proof.
  destruct (poll_completed_navigation (start 0) 0 800 1300 "COMPLETED" None eq_refl eq_refl eq_refl)
    as [(st2 & H1 & H2 & _) _].
  exists st2. split; [exact H1 | rewrite H2; reflexivity].
Defined.

End PollExtra.

(* ------------------------------------------------------------------ *)
(** ** Proofs about the JS string helpers and the query string *)

Module StringProofs.
Import JsString.

Lemma has_char_app c a b : has_char c (a ++ b) = has_char c a || has_char c b.
Proof.
  induction a as [|x a IH]; cbn; [reflexivity|].
  destruct (ascii_dec x c); [reflexivity | exact IH].
Qed.

Lemma split_on_nochar c w : has_char c w = false -> split_on c w = [w].
Proof.
  induction w as [|x w IH]; cbn; intros H; [reflexivity|].
  destruct (ascii_dec x c); [discriminate|]. rewrite (IH H). reflexivity.
Qed.

Lemma split_on_sep c w t :
  has_char c w = false -> split_on c (w ++ String c t) = w :: split_on c t.
Proof.
  induction w as [|x w IH]; cbn; intros H.
  - destruct (ascii_dec c c) as [_|n]; [reflexivity | contradiction].
  - destruct (ascii_dec x c); [discriminate|]. rewrite (IH H). reflexivity.
Qed.

(** [join] undoes [split_on]. *)
Lemma join_split c s : join (String c EmptyString) (split_on c s) = s.
Proof.
  induction s as [|x s IH]; cbn; [reflexivity|].
  destruct (ascii_dec x c) as [->|n].
  - destruct (split_on c s) as [|w ws] eqn:E; cbn.
    + pose proof (f_equal (@length string) E) as L.
      destruct s; cbn in L; [discriminate|].
      destruct (ascii_dec a c); [discriminate|]. destruct (split_on c s); discriminate.
    + destruct ws; cbn in *; rewrite IH; reflexivity.
  - destruct (split_on c s) as [|w ws] eqn:E; cbn.
    + destruct s; cbn in E; [discriminate|].
      destruct (ascii_dec a c); [discriminate|]. destruct (split_on c s); discriminate.
    + destruct ws; cbn in *; rewrite IH; reflexivity.
Qed.

(** The first piece of a split holds no separator. *)
Lemma split_on_head c s : exists w ws, split_on c s = w :: ws /\ has_char c w = false.
Proof.
  induction s as [|x s (w & ws & E & H)]; cbn.
  - exists EmptyString, []. split; reflexivity.
  - destruct (ascii_dec x c) as [->|n].
    + exists EmptyString, (w :: ws). rewrite E. split; reflexivity.
    + rewrite E. exists (String x w), ws. split; [reflexivity|]. cbn.
      destruct (ascii_dec x c); [contradiction | exact H].
Qed.

Lemma split_join c l :
  l <> [] -> Forall (fun w => has_char c w = false) l ->
  split_on c (join (String c EmptyString) l) = l.
Proof.
  induction l as [|w ws IH]; intros Hne Hf; [contradiction|].
  inversion Hf as [|? ? Hw Hws]; subst.
  destruct ws as [|w' ws'].
  - cbn. apply split_on_nochar, Hw.
  - change (join (String c EmptyString) (w :: w' :: ws'))
      with (w ++ String c (join (String c EmptyString) (w' :: ws')))%string.
    rewrite split_on_sep by exact Hw. rewrite IH; [reflexivity | discriminate | exact Hws].
Qed.

End StringProofs.

Module UrlProofs.
Import JsString UrlParams StringProofs.

Lemma plus_to_space_app a b : plus_to_space (a ++ b) = (plus_to_space a ++ plus_to_space b)%string.
Proof. induction a as [|x a IH]; cbn; [reflexivity|]. rewrite IH. reflexivity. Qed.

Lemma decode_byte c rest :
  percent_decode (plus_to_space (encode_byte c) ++ rest) = String c (percent_decode rest).
Proof. destruct c as [[] [] [] [] [] [] [] []]; reflexivity. Qed.

Lemma encode_byte_amp c : has_char "&"%char (encode_byte c) = false.
Proof. destruct c as [[] [] [] [] [] [] [] []]; reflexivity. Qed.

Lemma encode_byte_eq c : has_char "="%char (encode_byte c) = false.
Proof. destruct c as [[] [] [] [] [] [] [] []]; reflexivity. Qed.

Lemma form_decode_encode s : form_decode (form_encode s) = s.
Proof.
  unfold form_decode. induction s as [|c s IH]; cbn; [reflexivity|].
  rewrite plus_to_space_app, decode_byte, IH. reflexivity.
Qed.

Lemma form_encode_amp s : has_char "&"%char (form_encode s) = false.
Proof.
  induction s as [|c s IH]; cbn; [reflexivity|].
  rewrite has_char_app, encode_byte_amp, IH. reflexivity.
Qed.

Lemma form_encode_eq s : has_char "="%char (form_encode s) = false.
Proof.
  induction s as [|c s IH]; cbn; [reflexivity|].
  rewrite has_char_app, encode_byte_eq, IH. reflexivity.
Qed.

Lemma split_first_sep c w t :
  has_char c w = false -> split_first c (w ++ String c t) = (w, Some t).
Proof.
  induction w as [|x w IH]; cbn; intros H.
  - destruct (ascii_dec c c) as [_|n]; [reflexivity | contradiction].
  - destruct (ascii_dec x c); [discriminate|]. rewrite (IH H). reflexivity.
Qed.

Lemma parse_pair_encoded k v :
  parse_pair (form_encode k ++ "=" ++ form_encode v)%string = (k, v).
Proof.
  unfold parse_pair. change ("=" ++ form_encode v)%string with (String "="%char (form_encode v)).
  rewrite split_first_sep by apply form_encode_eq.
  rewrite !form_decode_encode. reflexivity.
Qed.

Lemma pair_has_no_amp (kv : string * string) :
  has_char "&"%char (form_encode (fst kv) ++ "=" ++ form_encode (snd kv))%string = false.
Proof.
  rewrite has_char_app. change ("=" ++ form_encode (snd kv))%string
    with (String "="%char (form_encode (snd kv))).
  cbn [has_char]. rewrite form_encode_amp, form_encode_amp. reflexivity.
Qed.

Lemma pair_nonempty (kv : string * string) :
  String.eqb (form_encode (fst kv) ++ "=" ++ form_encode (snd kv))%string EmptyString = false.
Proof. destruct (form_encode (fst kv)); reflexivity. Qed.

Lemma parse_serialize_nonempty ps : ps <> [] -> parse (serialize ps) = ps.
Proof.
  intros Hne. unfold parse, serialize.
  rewrite split_join.
  - induction ps as [|kv ps IH]; [reflexivity|]. cbn [map filter].
    rewrite pair_nonempty. cbn [negb]. cbn [map].
    destruct kv as [k v]. cbn [fst snd]. rewrite parse_pair_encoded.
    destruct ps as [|kv' ps']; [reflexivity|]. rewrite IH by discriminate. reflexivity.
  - destruct ps; [contradiction | discriminate].
  - apply Forall_map, Forall_forall. intros kv _. apply pair_has_no_amp.
Qed.

End UrlProofs.

(* ------------------------------------------------------------------ *)
(** ** Proofs about the API client *)

Module ApiExtra.
Import Api.

Lemma opt_truthy_some t : t <> "" -> opt_truthy (Some t) = true.
Proof. intros H. cbn. apply String.eqb_neq in H. rewrite H. reflexivity. Qed.

Lemma obj_get_set k k' v o :
  obj_get k (obj_set k' v o) = if String.eqb k k' then Some v else obj_get k o.
Proof.
  induction o as [|[k0 v0] o IH]; cbn; [reflexivity|].
  destruct (String.eqb_spec k' k0) as [<-|n]; cbn.
  - destruct (String.eqb k k'); reflexivity.
  - rewrite IH. destruct (String.eqb_spec k k') as [->|n']; [|reflexivity].
    apply String.eqb_neq in n. rewrite n. reflexivity.
Qed.

(** X7: without a session token (absent or empty), no endpoint sends a
    request: [apiFetch] and every helper built on it throw 'User is not
    authenticated', an error that carries no HTTP status. *)
Theorem api_requires_session base session endpoint options fetch f reportType reportId params :
  opt_truthy session = false ->
  apiFetch base session endpoint options fetch = ([], Throws NotAuthenticated) /\
  uploadReport base session f reportType fetch = ([], Throws NotAuthenticated) /\
  getReportStatus base session reportId fetch = ([], Throws NotAuthenticated) /\
  deleteReport base session reportId fetch = ([], Throws NotAuthenticated) /\
  Reports.listReports base session params fetch = ([], Throws NotAuthenticated) /\
  error_status NotAuthenticated = None.
Proof.
  intros H. unfold uploadReport, getReportStatus, deleteReport, Reports.listReports, apiFetch.
  rewrite H. repeat split.
Qed.

Lemma api_requires_session_witness :
  getReportStatus "https://api" (Some "") "r1" (fun _ => None) = ([], Throws NotAuthenticated).
Proof.
  apply (api_requires_session "https://api" (Some "") "" no_options (fun _ => None)
           (mk_file "a.png" "image/png") None "r1" None eq_refl).
Defined.

(** X8: with a session, the one request sent goes to the base URL followed
    by the endpoint, with the caller's method and body; its headers carry
    [Authorization: Bearer <token>] (overriding the caller's), keep every
    other caller header, and get [Content-Type: application/json] unless
    the body is a FormData or the caller set a non-empty Content-Type
    (the key is matched case-sensitively). *)
Theorem api_request_headers base token endpoint options fetch :
  token <> "" ->
  exists req, fst (apiFetch base (Some token) endpoint options fetch) = [req] /\
    req.(url) = (base ++ endpoint)%string /\ req.(init).(method) = options.(method) /\
    req.(init).(body) = options.(body) /\
    obj_get "Authorization" req.(init).(headers) = Some ("Bearer " ++ token)%string /\
    obj_get "Content-Type" req.(init).(headers) =
      (if is_form_data options.(body) || opt_truthy (obj_get "Content-Type" options.(headers))
       then obj_get "Content-Type" options.(headers) else Some "application/json") /\
    (forall k, k <> "Authorization" -> k <> "Content-Type" ->
       obj_get k req.(init).(headers) = obj_get k options.(headers)).
Proof.
  intros Ht. eexists. split.
  { unfold apiFetch. rewrite (opt_truthy_some _ Ht). reflexivity. }
  cbn [url init method body headers]. unfold build_headers.
  rewrite (obj_get_set "Content-Type" "Authorization"). cbn [String.eqb Ascii.eqb Bool.eqb].
  destruct (is_form_data (body options)), (opt_truthy (obj_get "Content-Type" (headers options)));
    cbn [negb andb orb];
    (split; [reflexivity|]); (split; [reflexivity|]); (split; [reflexivity|]);
    rewrite ?obj_get_set; cbn [String.eqb Ascii.eqb Bool.eqb];
    (split; [reflexivity|]); (split; [reflexivity|]);
    intros k H1 H2; apply String.eqb_neq in H1, H2; rewrite ?obj_get_set, ?H1, ?H2; reflexivity.
Qed.

Lemma api_request_headers_witness :
  exists req, fst (apiFetch "https://api" (Some "tok") "/reports/r1" no_options (fun _ => None)) = [req] /\
    obj_get "Content-Type" req.(init).(headers) = Some "application/json".
Proof.
  destruct (api_request_headers "https://api" "tok" "/reports/r1" no_options (fun _ => None)
              ltac:(discriminate)) as (req & H1 & _ & _ & _ & _ & H5 & _).
  exists req. split; [exact H1 | rewrite H5; reflexivity].
Defined.

(** X9: a non-ok response always makes [apiFetch] throw.  The error
    carries the response's HTTP status, except when the error body is
    JSON [null] (the property read throws a TypeError without status); a
    body that is not JSON gives the message 'Request failed', and a
    truthy [detail] field is the message in preference to anything
    else. *)
Theorem api_non_ok_throws base token endpoint options fetch resp :
  token <> "" -> (forall q, fetch q = Some resp) -> ok resp = false ->
  exists e, snd (apiFetch base (Some token) endpoint options fetch) = Throws e /\
    (resp.(json_body) = Some JNull -> e = NullBody) /\
    (resp.(json_body) <> Some JNull ->
       exists m, e = HttpError m resp.(status) /\
         (resp.(json_body) = None -> m = JStr "Request failed") /\
         (forall v d, resp.(json_body) = Some v -> get_field "detail" v = Some d ->
            json_truthy (Some d) = true -> m = d)).
Proof.
  intros Ht Hf Hok. unfold apiFetch. rewrite (opt_truthy_some _ Ht). cbn [negb snd].
  rewrite Hf, Hok. cbn [negb].
  destruct (json_body resp) as [v|] eqn:Hb.
  - destruct v; try (eexists; split; [reflexivity|]; split;
                     [intros Hx; discriminate | intros _; eexists; split; [reflexivity|];
                      split; [intros Hx; discriminate|];
                      intros v d Hv Hd Htr; injection Hv as <-; unfold error_arg;
                      rewrite Hd; unfold or_else; rewrite Htr; reflexivity]).
    eexists. split; [reflexivity|]. split; [reflexivity | intros Hx; contradiction].
  - eexists. split; [reflexivity|]. split; [intros Hx; discriminate|].
    intros _. eexists. split; [reflexivity|]. split; [reflexivity | intros v d Hv; discriminate].
Qed.

Lemma api_non_ok_throws_witness :
  snd (apiFetch "https://api" (Some "tok") "/reports/r9/status" no_options
         (fun _ => Some (mk_response 404 "Not Found" (Some (JObj [("detail", JStr "Report not found")])))))
  = Throws (HttpError (JStr "Report not found") 404).
Proof.
  destruct (api_non_ok_throws "https://api" "tok" "/reports/r9/status" no_options
              (fun _ => Some (mk_response 404 "Not Found" (Some (JObj [("detail", JStr "Report not found")]))))
              (mk_response 404 "Not Found" (Some (JObj [("detail", JStr "Report not found")])))
              ltac:(discriminate) (fun _ => eq_refl) eq_refl) as (e & He & _ & Hm).
  destruct (Hm ltac:(discriminate)) as (m & -> & _ & Hd).
  rewrite He. rewrite (Hd _ (JStr "Report not found") eq_refl eq_refl eq_refl). reflexivity.
Defined.

(** X10: an ok response resolves: a 204 to an empty object whatever its
    body, any other 2xx to its parsed body; a 2xx other than 204 whose
    body is not JSON throws, without an HTTP status. *)
Theorem api_ok_resolves base token endpoint options fetch resp :
  token <> "" -> (forall q, fetch q = Some resp) -> ok resp = true ->
  (resp.(status) = 204 -> snd (apiFetch base (Some token) endpoint options fetch) = Resolves (JObj [])) /\
  (resp.(status) <> 204 -> forall v, resp.(json_body) = Some v ->
     snd (apiFetch base (Some token) endpoint options fetch) = Resolves v) /\
  (resp.(status) <> 204 -> resp.(json_body) = None ->
     snd (apiFetch base (Some token) endpoint options fetch) = Throws BadBody /\
     error_status BadBody = None).
Proof.
  intros Ht Hf Hok. unfold apiFetch. rewrite (opt_truthy_some _ Ht). cbn [negb snd].
  rewrite Hf, Hok. cbn [negb].
  split; [intros Hs; rewrite Hs; reflexivity|].
  split; intros Hs; apply Z.eqb_neq in Hs; rewrite Hs.
  - intros v Hv. rewrite Hv. reflexivity.
  - intros Hb. rewrite Hb. split; reflexivity.
Qed.

Lemma api_ok_resolves_witness :
  snd (deleteReport "https://api" (Some "tok") "r1"
         (fun _ => Some (mk_response 204 "No Content" None))) = Resolves (JObj []).
Proof.
  destruct (api_ok_resolves "https://api" "tok" "/reports/r1" (mk_init (Some "DELETE") NoBody [])
              (fun _ => Some (mk_response 204 "No Content" None)) (mk_response 204 "No Content" None)
              ltac:(discriminate) (fun _ => eq_refl) eq_refl) as [H _].
  exact (H eq_refl).
Defined.

(** X11: [uploadReport] sends one POST to /reports/upload whose body is a
    FormData holding the file, then the report type only when it is a
    non-empty string, and whose headers hold only the Authorization entry:
    no Content-Type is set, so the browser supplies the multipart one. *)
Theorem upload_request base token f reportType fetch :
  token <> "" ->
  exists req, fst (uploadReport base (Some token) f reportType fetch) = [req] /\
    req.(url) = (base ++ "/reports/upload")%string /\ req.(init).(method) = Some "POST" /\
    req.(init).(headers) = [("Authorization", "Bearer " ++ token)%string] /\
    (forall t, reportType = Some t -> t <> "" ->
       req.(init).(body) = FormDataBody [("file", FormFile f); ("report_type", FormString t)]) /\
    (reportType = None \/ reportType = Some "" ->
       req.(init).(body) = FormDataBody [("file", FormFile f)]).
Proof.
  intros Ht. eexists. split.
  { unfold uploadReport, apiFetch. rewrite (opt_truthy_some _ Ht). reflexivity. }
  cbn [url init method body headers build_headers obj_set is_form_data negb andb].
  split; [reflexivity|]. split; [reflexivity|]. split; [reflexivity|]. split.
  - intros t -> Hn. rewrite (opt_truthy_some _ Hn). reflexivity.
  - intros [-> | ->]; reflexivity.
Qed.

Lemma upload_request_witness :
  exists req, fst (uploadReport "https://api" (Some "tok") (mk_file "scan.jpg" "image/jpeg")
                     (Some "blood_test") (fun _ => None)) = [req] /\
    req.(init).(body) = FormDataBody [("file", FormFile (mk_file "scan.jpg" "image/jpeg"));
                                      ("report_type", FormString "blood_test")].
Proof.
  destruct (upload_request "https://api" "tok" (mk_file "scan.jpg" "image/jpeg") (Some "blood_test")
              (fun _ => None) ltac:(discriminate)) as (req & H1 & _ & _ & _ & H5 & _).
  exists req. split; [exact H1 | apply H5; [reflexivity | discriminate]].
Defined.

End ApiExtra.

Module PollApiExtra.
Import Poll Api ApiExtra PollExtra.

(** X12: how the poll loop of ScanningScreen reacts to what
    [getReportStatus] really produces.  A missing session, a rejected
    fetch, a non-ok status other than 404/400, a 404/400 whose body is JSON
    [null], a 204, and a 2xx body that is not JSON all lead to a retry
    2000 ms later; only a 404 or 400 with a non-null body is fatal
    (toast and navigation to scan-error). *)
Theorem poll_api_outcomes base session reportId fetch st now e :
  st.(isMounted) = true -> st.(inFlight) = Some e ->
  let r := status_result (snd (getReportStatus base session reportId fetch)) in
  let retry := Some (set_pollTimer (set_clock (set_inFlight st None) now) (Some (now + 2000))) in
  let fatal := Some (emit (set_clock (set_inFlight st None) now)
                          [Toast msg_fatal; Navigate scr_scan_error]) in
  (opt_truthy session = false -> step st (Settle now r) = retry) /\
  (opt_truthy session = true -> (forall q, fetch q = None) -> step st (Settle now r) = retry) /\
  (forall resp, opt_truthy session = true -> (forall q, fetch q = Some resp) ->
     (resp.(status) = 404 \/ resp.(status) = 400) -> resp.(json_body) <> Some JNull ->
     step st (Settle now r) = fatal) /\
  (forall resp, opt_truthy session = true -> (forall q, fetch q = Some resp) -> ok resp = false ->
     (resp.(status) <> 404 /\ resp.(status) <> 400 \/ resp.(json_body) = Some JNull) ->
     step st (Settle now r) = retry) /\
  (forall resp, opt_truthy session = true -> (forall q, fetch q = Some resp) -> ok resp = true ->
     (resp.(status) = 204 \/ resp.(json_body) = None) ->
     step st (Settle now r) = retry).
Proof.
  intros Hm Hi r retry fatal. subst r retry fatal.
  unfold step, getReportStatus, apiFetch. rewrite Hi.
  assert (Hretry : forall c, (c = None \/ exists z, c = Some z /\ z <> 404 /\ z <> 400) ->
            Some (pollResume now e (Rejected c) st)
            = Some (set_pollTimer (set_clock (set_inFlight st None) now) (Some (now + 2000)))).
  { intros c Hc. unfold pollResume, pollCatch. proj.
    destruct Hc as [-> | (z & -> & H1 & H2)]; [rewrite Hm; reflexivity|].
    apply Z.eqb_neq in H1, H2. rewrite H1, H2. cbn [orb]. rewrite Hm. reflexivity. }
  split; [|split; [|split; [|split]]].
  - intros Hs. rewrite Hs. cbn [negb snd status_result error_status]. apply Hretry. left. reflexivity.
  - intros Hs Hf. rewrite Hs. cbn [negb snd]. rewrite Hf. apply Hretry. left. reflexivity.
  - intros resp Hs Hf Hc Hb. rewrite Hs. cbn [negb snd]. rewrite Hf.
    assert (Hok : ok resp = false) by (unfold ok; destruct Hc as [-> | ->]; reflexivity).
    rewrite Hok. cbn [negb].
    assert (Hf2 : forall c, c = status resp ->
              Some (pollResume now e (Rejected (Some c)) st)
              = Some (emit (set_clock (set_inFlight st None) now) [Toast msg_fatal; Navigate scr_scan_error])).
    { intros c ->. unfold pollResume, pollCatch. proj. destruct Hc as [-> | ->]; reflexivity. }
    destruct (json_body resp) as [v|]; [destruct v; try (apply Hf2; reflexivity)|apply Hf2; reflexivity].
    contradiction.
  - intros resp Hs Hf Hok Hc. rewrite Hs. cbn [negb snd]. rewrite Hf, Hok. cbn [negb].
    destruct (json_body resp) as [v|] eqn:Hb.
    + destruct Hc as [[H1 H2] | Hn].
      * destruct v; apply Hretry;
          first [left; reflexivity | right; exists (status resp); repeat split; assumption].
      * injection Hn as ->. apply Hretry. left. reflexivity.
    + destruct Hc as [[H1 H2] | Hn]; [|discriminate].
      apply Hretry; right; exists (status resp); repeat split; assumption.
  - intros resp Hs Hf Hok Hc. rewrite Hs. cbn [negb snd]. rewrite Hf, Hok. cbn [negb].
    destruct (Z.eqb_spec (status resp) 204) as [H204 | H204].
    + change (status_result (Resolves (JObj []))) with (Resolved None None).
      unfold pollResume. proj. rewrite Hm. proj. unfold pollCatch. proj. rewrite Hm. reflexivity.
    + destruct Hc as [Hc | Hb]; [contradiction|]. rewrite Hb. apply Hretry. left. reflexivity.
Qed.

Lemma poll_api_outcomes_witness :
  step (start 0) (Settle 900 (status_result (snd (getReportStatus "https://api" (Some "tok") "r1"
          (fun _ => Some (mk_response 404 "Not Found" (Some JNull)))))))
  = Some (set_pollTimer (set_clock (set_inFlight (start 0) None) 900) (Some 2900)).
Proof.
  destruct (poll_api_outcomes "https://api" (Some "tok") "r1"
              (fun _ => Some (mk_response 404 "Not Found" (Some JNull))) (start 0) 900 0 eq_refl eq_refl)
    as (_ & _ & _ & H & _).
  apply (H (mk_response 404 "Not Found" (Some JNull)) eq_refl (fun _ => eq_refl) eq_refl).
  right. reflexivity.
Defined.

End PollApiExtra.

(* ------------------------------------------------------------------ *)
(** ** Proofs about the query string of the report list *)

Module UrlExtra.
Import JsString UrlParams StringProofs UrlProofs.

(** X13: [URLSearchParams] parsing gives back exactly the pairs that were
    appended, in order, whatever bytes the names and values hold ([&],
    [=], [+], [%], spaces): the form encoding leaves no separator in a
    name or a value and percent-decoding undoes it byte by byte. *)
Theorem url_params_round_trip ps : parse (serialize ps) = ps.
Proof.
  destruct ps as [|kv ps]; [reflexivity|].
  apply parse_serialize_nonempty. discriminate.
Qed.

Lemma toLowerCase_empty s : String.eqb (toLowerCase s) "" = String.eqb s "".
Proof. destruct s; reflexivity. Qed.

Lemma time_range_truthy t : App.truthy (Reports.time_range_of t) = true.
Proof.
  unfold Reports.time_range_of.
  repeat match goal with |- context [if ?b then _ else _] => destruct b end; reflexivity.
Qed.

(** X14: the request HistoryScreen's [loadReports] sends for its filters
    decodes to: [report_type] unless the type filter is 'All Types' (or
    empty), [flag_level] as the lower-cased flag unless it is 'All' (or
    empty), then [status=completed], the [time_range] code, [page=1],
    [limit=50], and [target_user_id] only when a family member with a
    non-empty id is being viewed; never a [search] parameter. *)
Theorem history_list_request base token f viewing fetch :
  token <> "" ->
  exists req q,
    fst (Reports.listReports base (Some token) (Some (Reports.loadReports_params f viewing)) fetch) = [req] /\
    req.(Api.url) = (base ++ "/reports?" ++ q)%string /\
    parse q =
      (if String.eqb f.(Reports.type) "All Types" || String.eqb f.(Reports.type) "" then []
       else [("report_type", f.(Reports.type))]) ++
      (if String.eqb f.(Reports.flag) "All" || String.eqb f.(Reports.flag) "" then []
       else [("flag_level", toLowerCase f.(Reports.flag))]) ++
      [("status", "completed"); ("time_range", Reports.time_range_of f.(Reports.time));
       ("page", "1"); ("limit", "50")] ++
      match viewing with Some u => if App.truthy u then [("target_user_id", u)] else [] | None => [] end.
Proof.
  intros Ht. do 2 eexists. split.
  { unfold Reports.listReports, Api.apiFetch.
    cbn [Api.opt_truthy]. apply String.eqb_neq in Ht. rewrite Ht. reflexivity. }
  split; [reflexivity|].
  rewrite parse_serialize_nonempty.
  2:{ unfold Reports.listReports_query. unfold Reports.str_param at 1 2 3 4.
      cbn [Reports.search Reports.report_type Reports.flag_level Reports.status Reports.loadReports_params].
      destruct (String.eqb _ "All Types"); [|destruct (App.truthy _)];
      (destruct (String.eqb _ "All"); [|destruct (App.truthy _)]); discriminate. }
  unfold Reports.listReports_query, Reports.loadReports_params.
  cbn [Reports.search Reports.report_type Reports.flag_level Reports.status Reports.time_range
       Reports.page Reports.limit Reports.user_id].
  assert (E1 : Reports.str_param "report_type"
                 (if String.eqb (Reports.type f) "All Types" then None else Some (Reports.type f))
               = if String.eqb (Reports.type f) "All Types" || String.eqb (Reports.type f) "" then []
                 else [("report_type", Reports.type f)]).
  { destruct (String.eqb (Reports.type f) "All Types"); [reflexivity|].
    unfold Reports.str_param, App.truthy. cbn [orb].
    destruct (String.eqb (Reports.type f) ""); reflexivity. }
  assert (E2 : Reports.str_param "flag_level"
                 (if String.eqb (Reports.flag f) "All" then None else Some (toLowerCase (Reports.flag f)))
               = if String.eqb (Reports.flag f) "All" || String.eqb (Reports.flag f) "" then []
                 else [("flag_level", toLowerCase (Reports.flag f))]).
  { destruct (String.eqb (Reports.flag f) "All"); [reflexivity|].
    unfold Reports.str_param, App.truthy. cbn [orb]. rewrite toLowerCase_empty.
    destruct (String.eqb (Reports.flag f) ""); reflexivity. }
  assert (E3 : Reports.str_param "time_range" (Some (Reports.time_range_of (Reports.time f)))
               = [("time_range", Reports.time_range_of (Reports.time f))]).
  { unfold Reports.str_param. rewrite time_range_truthy. reflexivity. }
  assert (E4 : Reports.str_param "target_user_id" viewing
               = match viewing with Some u => if App.truthy u then [("target_user_id", u)] else []
                 | None => [] end).
  { destruct viewing; reflexivity. }
  rewrite E1, E2, E3, E4. reflexivity.
Qed.

Lemma history_list_request_witness :
  exists req q,
    fst (Reports.listReports "https://api" (Some "tok")
           (Some (Reports.loadReports_params (Reports.mk_filters "Blood Test" "High" "Last Month") None))
           (fun _ => None)) = [req] /\
    req.(Api.url) = ("https://api/reports?" ++ q)%string /\
    parse q = [("report_type", "Blood Test"); ("flag_level", "high"); ("status", "completed");
               ("time_range", "30d"); ("page", "1"); ("limit", "50")].
Proof.
  destruct (history_list_request "https://api" "tok" (Reports.mk_filters "Blood Test" "High" "Last Month")
              None (fun _ => None) ltac:(discriminate)) as (req & q & H1 & H2 & H3).
  exists req, q. split; [exact H1|]. split; [exact H2|]. rewrite H3. reflexivity.
Defined.

End UrlExtra.

(* ------------------------------------------------------------------ *)
(** ** Proofs about HistoryScreen *)

Module HistoryExtra.
Import History.

(** X15: in delete mode a click toggles the clicked id in the selection
    and leaves every other id as it was, so the selection never holds an
    id twice; outside delete mode a click opens the report. *)
Theorem history_click_toggles sel rid :
  (exists sel', handleReportClick true sel rid = Select sel' /\
     (In rid sel' <-> ~ In rid sel) /\
     (forall x, x <> rid -> (In x sel' <-> In x sel)) /\
     (NoDup sel -> NoDup sel')) /\
  handleReportClick false sel rid = Open rid.
Proof.
  split; [|reflexivity]. unfold handleReportClick.
  destruct (existsb (String.eqb rid) sel) eqn:E.
  - apply existsb_exists in E as (y & Hy & Hr). apply String.eqb_eq in Hr. subst y.
    eexists. split; [reflexivity|]. split; [|split].
    + rewrite filter_In. rewrite String.eqb_refl. cbn. split; [intros [_ H]; discriminate|].
      intros H. contradiction.
    + intros x Hx. rewrite filter_In. apply String.eqb_neq in Hx. rewrite Hx. cbn. tauto.
    + apply NoDup_filter.
  - assert (Hn : ~ In rid sel).
    { intros Hin. assert (existsb (String.eqb rid) sel = true) as Hc
        by (apply existsb_exists; exists rid; split; [exact Hin | apply String.eqb_refl]).
      congruence. }
    eexists. split; [reflexivity|]. split; [|split].
    + rewrite in_app_iff. cbn. tauto.
    + intros x Hx. rewrite in_app_iff. cbn. split; [intros [H | [H | []]]; [exact H | congruence] | tauto].
    + intros Hd. rewrite <- (rev_involutive sel). change [rid] with (rev [rid]).
      rewrite <- rev_app_distr. apply NoDup_rev. cbn [app]. constructor.
      * rewrite <- in_rev. exact Hn.
      * apply NoDup_rev, Hd.
Qed.

(** X16: clicking an unselected report twice in delete mode gives back
    the selection it started from. *)
Theorem history_click_twice sel rid :
  ~ In rid sel ->
  exists sel', handleReportClick true sel rid = Select sel' /\
               handleReportClick true sel' rid = Select sel.
Proof.
  intros Hn. unfold handleReportClick.
  assert (E : existsb (String.eqb rid) sel = false).
  { apply not_true_is_false. intros Hc. apply existsb_exists in Hc as (y & Hy & Hr).
    apply String.eqb_eq in Hr. subst y. contradiction. }
  rewrite E. eexists. split; [reflexivity|].
  rewrite existsb_app. cbn. rewrite String.eqb_refl, orb_true_r. f_equal.
  rewrite filter_app. cbn. rewrite String.eqb_refl. cbn. rewrite app_nil_r.
  clear E. induction sel as [|x sel IH]; [reflexivity|]. cbn.
  destruct (String.eqb_spec x rid) as [-> | Hx]; [exfalso; apply Hn; left; reflexivity|].
  cbn. rewrite IH; [reflexivity|]. intros H. apply Hn. right. exact H.
Qed.

Lemma history_click_twice_witness :
  handleReportClick true ["r1"; "r2"] "r3" = Select ["r1"; "r2"; "r3"] /\
  handleReportClick true ["r1"; "r2"; "r3"] "r3" = Select ["r1"; "r2"].
Proof.
  destruct (history_click_twice ["r1"; "r2"] "r3") as (sel' & H1 & H2).
  - cbn. intros [H | [H | []]]; discriminate.
  - rewrite H1 in *. vm_compute in H1. injection H1 as <-. split; [reflexivity | exact H2].
Defined.

(** X17: [performDelete] while viewing a family member's reports sends
    nothing and changes nothing; otherwise it sends a delete for every
    selected id, and unless every one succeeds the list, the selection
    and delete mode stay exactly as they were (even though the successful
    deletes were sent); when all succeed, exactly the reports whose id was
    selected leave the list, the selection is emptied and delete mode is
    left. *)
Theorem history_delete_outcomes viewing deleteOk st sent msg st' :
  performDelete viewing deleteOk st = (sent, msg, st') ->
  (viewing = true -> sent = [] /\ st' = st) /\
  (viewing = false -> sent = st.(selectedReports) /\
     (forallb deleteOk sent = false -> st' = st /\ msg = "Failed to delete reports") /\
     (forallb deleteOk sent = true -> st'.(selectedReports) = [] /\ st'.(isDeleteMode) = false /\
        forall r, In r st'.(reports) <-> In r st.(reports) /\ ~ In r.(id) sent)).
Proof.
  unfold performDelete. intros H. split; intros Hv; subst viewing.
  - injection H as <- _ <-. split; reflexivity.
  - destruct (forallb deleteOk (selectedReports st)) eqn:E; injection H as <- <- <-;
      (split; [reflexivity|]); rewrite E; (split; intros Hx; [|]); try discriminate.
    + cbn [History.reports History.selectedReports History.isDeleteMode].
      split; [reflexivity|]. split; [reflexivity|]. intros r. rewrite filter_In.
      split.
      * intros [Hin Hx']. split; [exact Hin|]. intros Hi. apply negb_true_iff in Hx'.
        assert (existsb (String.eqb (id r)) (selectedReports st) = true) as Hc
          by (apply existsb_exists; exists (id r); split; [exact Hi | apply String.eqb_refl]).
        congruence.
      * intros [Hin Hni]. split; [exact Hin|]. apply negb_true_iff, not_true_is_false.
        intros Hc. apply existsb_exists in Hc as (y & Hy & Hr). apply String.eqb_eq in Hr.
        subst y. contradiction.
    + split; reflexivity.
Qed.

Lemma history_delete_outcomes_witness :
  performDelete false (fun i => negb (String.eqb i "r2"))
    (mk_history [mk_report "r1" "Blood Test" "Lab A"; mk_report "r2" "X-Ray" "Lab B"] ["r1"; "r2"] true)
  = (["r1"; "r2"], "Failed to delete reports",
     mk_history [mk_report "r1" "Blood Test" "Lab A"; mk_report "r2" "X-Ray" "Lab B"] ["r1"; "r2"] true).
Proof.
  destruct (history_delete_outcomes false (fun i => negb (String.eqb i "r2"))
              (mk_history [mk_report "r1" "Blood Test" "Lab A"; mk_report "r2" "X-Ray" "Lab B"] ["r1"; "r2"] true)
              ["r1"; "r2"] "Failed to delete reports"
              (mk_history [mk_report "r1" "Blood Test" "Lab A"; mk_report "r2" "X-Ray" "Lab B"] ["r1"; "r2"] true)
              eq_refl) as [_ H].
  destruct (H eq_refl) as (_ & Hf & _). destruct (Hf eq_refl) as [_ _]. reflexivity.
Defined.

(** X18: the search box matches case-insensitively in the query, an empty
    query keeps every report, and the result only ever drops reports. *)
Theorem history_search_filter q rs :
  filteredReports (toLowerCase q) rs = filteredReports q rs /\
  filteredReports "" rs = rs /\
  incl (filteredReports q rs) rs.
Proof.
  split; [|split].
  - unfold filteredReports. rewrite PollExtra.toLowerCase_idem. reflexivity.
  - unfold filteredReports. induction rs as [|r rs IH]; [reflexivity|]. cbn [filter].
    assert (Hi : forall s, JsString.includes s (toLowerCase "") = true)
      by (intros s; destruct s; reflexivity).
    rewrite Hi. cbn [orb]. rewrite IH. reflexivity.
  - intros r Hr. unfold filteredReports in Hr. apply filter_In in Hr. apply Hr.
Qed.

End HistoryExtra.

(* ------------------------------------------------------------------ *)
(** ** Proofs about ScanScreen and the redirect of ScanningScreen *)

Module ScanExtra.
Import Api Redirect Scan.

Lemma redirect_quiet rid st evs st' :
  st.(timer) = None -> redirect_exec rid st evs = Some st' -> st'.(r_log) = st.(r_log).
Proof.
  revert st. induction evs as [|ev evs IH]; intros st Ht He; cbn [redirect_exec] in He.
  - injection He as <-. reflexivity.
  - destruct ev as [now|]; cbn [redirect_step] in He.
    + rewrite Ht in He. discriminate.
    + apply IH in He; [exact He | reflexivity].
Qed.

Lemma redirect_run rid t0 evs st :
  json_truthy rid = false -> redirect_exec rid (redirect_start t0) evs = Some st ->
  st.(r_log) = match evs with RFire _ :: _ => [Poll.Navigate "scan"] | _ => [] end.
Proof.
  intros Hr He. destruct evs as [|[now|] evs]; cbn [redirect_exec redirect_step] in He.
  - injection He as <-. reflexivity.
  - cbn [timer redirect_start] in He. rewrite Hr in He.
    apply redirect_quiet in He; [exact He | reflexivity].
  - apply redirect_quiet in He; [exact He | reflexivity].
Qed.

(** X19: ScanningScreen mounted without a (truthy) report id never polls:
    it only arms the 2000 ms timer, and its whole visible effect is one
    navigation back to 'scan' when that timer fires first, and nothing
    when the screen is unmounted before. *)
Theorem scanning_redirect_without_report rid t0 evs st :
  json_truthy rid = false -> redirect_exec rid (redirect_start t0) evs = Some st ->
  scanning_mount rid t0 = Redirecting (redirect_start t0) /\
  st.(r_log) = match evs with RFire _ :: _ => [Poll.Navigate "scan"] | _ => [] end.
Proof.
  intros Hr He. split; [unfold scanning_mount; rewrite Hr; reflexivity|].
  exact (redirect_run rid t0 evs st Hr He).
Qed.

Lemma scanning_redirect_without_report_witness :
  redirect_exec (Some JNull) (redirect_start 0) [RCleanup; RFire 2000] = None /\
  (exists st, redirect_exec None (redirect_start 0) [RFire 2000; RCleanup] = Some st /\
              st.(r_log) = [Poll.Navigate "scan"]).
Proof.
  split; [reflexivity|]. eexists. split; [reflexivity|].
  refine (proj2 (scanning_redirect_without_report None 0 [RFire 2000; RCleanup] _ eq_refl eq_refl)).
Defined.

(** X20: picking files adds exactly the files of the accepted kind, in
    the order picked, after the ones already captured; the error toast is
    shown exactly when some picked file is of another kind.  No selection
    leaves the list as it is. *)
Theorem scan_validate_files files kind captured :
  let fs := match files with Some fs => fs | None => [] end in
  fst (validateAndAddFiles files kind captured) = captured ++ filter (accepts kind) fs /\
  (snd (validateAndAddFiles files kind captured) <> None <->
   exists f, In f fs /\ accepts kind f = false).
Proof.
  intros fs. subst fs.
  destruct files as [[|f0 fs]|]; cbn [validateAndAddFiles fst snd];
    try (cbn [filter]; rewrite app_nil_r; split; [reflexivity|];
         split; [intros H; contradiction | intros (f & [] & _)]).
  set (l := f0 :: fs). split.
  - destruct (filter (accepts kind) l) eqn:E; cbn [length Nat.ltb Nat.leb];
      [rewrite app_nil_r; reflexivity | reflexivity].
  - destruct (existsb (fun f => negb (accepts kind f)) l) eqn:E; split.
    + intros _. apply existsb_exists in E as (f & Hf & Ha). exists f. split; [exact Hf|].
      apply negb_true_iff, Ha.
    + intros _. discriminate.
    + intros H. contradiction.
    + intros (f & Hf & Ha). exfalso.
      assert (existsb (fun f => negb (accepts kind f)) l = true) as Hc
        by (apply existsb_exists; exists f; split; [exact Hf | rewrite Ha; reflexivity]).
      congruence.
Qed.

(** X21: Analyze sends at most one upload, of the first captured file
    only, without a report type; with nothing captured it sends nothing
    and asks for a document.  An upload answered with a non-null body
    stores its [report_id] and goes to 'scanning'; any failure leaves the
    report id untouched and goes to 'scan-error'. *)
Theorem scan_uploads_first_only base session f rest fetch :
  handleScan base session [] fetch = mk_scan_result [] NeedDocument None None /\
  let r := handleScan base session (f :: rest) fetch in
  r.(scan_requests) = fst (uploadReport base session f None fetch) /\
  (length r.(scan_requests) <= 1)%nat /\
  ((exists v, snd (uploadReport base session f None fetch) = Resolves v /\ v <> JNull /\
      r.(new_report_id) = Some (get_field "report_id" v) /\ r.(new_screen) = Some "scanning" /\
      r.(scan_toast_of) = Uploaded) \/
   (r.(new_report_id) = None /\ r.(new_screen) = Some scr_scan_error /\
    exists e, r.(scan_toast_of) = UploadFailed e)).
Proof.
  split; [reflexivity|]. cbn [handleScan].
  assert (Hl : (length (fst (uploadReport base session f None fetch)) <= 1)%nat).
  { unfold uploadReport, apiFetch. destruct (negb (opt_truthy session)); cbn; lia. }
  destruct (uploadReport base session f None fetch) as [reqs r] eqn:E. cbn [fst snd] in *.
  destruct r as [v|e].
  - destruct v; cbn [scan_requests new_report_id new_screen scan_toast_of];
      (split; [reflexivity|]); (split; [exact Hl|]);
      first [right; split; [reflexivity|]; split; [reflexivity|]; eexists; reflexivity
            | left; eexists; split; [reflexivity|]; split; [discriminate|]; repeat split].
  - cbn [scan_requests new_report_id new_screen scan_toast_of].
    split; [reflexivity|]. split; [exact Hl|]. right. split; [reflexivity|]. split; [reflexivity|].
    eexists; reflexivity.
Qed.

(** X22: an upload answer without a truthy [report_id] still sends the
    user to 'scanning', which then polls nothing and, when its 2000 ms
    timer fires, navigates straight back to 'scan'. *)
Theorem scan_without_report_id_back_to_scan base session f rest fetch v t0 evs st :
  snd (uploadReport base session f None fetch) = Resolves v -> v <> JNull ->
  json_truthy (get_field "report_id" v) = false ->
  (handleScan base session (f :: rest) fetch).(new_screen) = Some "scanning" /\
  exists rid, (handleScan base session (f :: rest) fetch).(new_report_id) = Some rid /\
    scanning_mount rid t0 = Redirecting (redirect_start t0) /\
    (redirect_exec rid (redirect_start t0) (RFire (t0 + 2000) :: evs) = Some st ->
     st.(r_log) = [Poll.Navigate "scan"]).
Proof.
  intros Hu Hv Hr. cbn [handleScan].
  destruct (uploadReport base session f None fetch) as [reqs r] eqn:E. cbn [snd] in Hu. subst r.
  assert (Hs : forall X : scan_result,
             X = (match v with JNull => mk_scan_result reqs (UploadFailed NullBody) None (Some scr_scan_error)
                  | _ => mk_scan_result reqs Uploaded (Some (get_field "report_id" v)) (Some "scanning") end) ->
             X = mk_scan_result reqs Uploaded (Some (get_field "report_id" v)) (Some "scanning")).
  { intros X ->. destruct v; [contradiction | reflexivity ..]. }
  rewrite (Hs _ eq_refl). cbn [new_screen new_report_id].
  split; [reflexivity|]. exists (get_field "report_id" v). split; [reflexivity|].
  split; [unfold scanning_mount; rewrite Hr; reflexivity|].
  intros He. exact (redirect_run _ t0 _ st Hr He).
Qed.

Lemma scan_without_report_id_back_to_scan_witness :
  exists st,
    redirect_exec (get_field "report_id" (JObj [("message", JStr "queued")])) (redirect_start 0)
      [RFire 2000] = Some st /\ st.(r_log) = [Poll.Navigate "scan"].
Proof.
  eexists. split; [reflexivity|].
  destruct (scan_without_report_id_back_to_scan "https://api" (Some "tok") (mk_file "scan.jpg" "image/jpeg") []
              (fun _ => Some (mk_response 200 "OK" (Some (JObj [("message", JStr "queued")]))))
              (JObj [("message", JStr "queued")]) 0 [] (mk_redirect None 2000 [Poll.Navigate "scan"])
              eq_refl ltac:(discriminate) eq_refl) as (_ & rid & Hrid & _ & H).
  apply H. cbn in Hrid. injection Hrid as <-. reflexivity.
Defined.

End ScanExtra.

(* ------------------------------------------------------------------ *)
(** ** Proofs about [fetchUserProfile] *)

Module ProfileExtra.
Import JsString StringProofs Profile.

(** X23: a user is set only for a signed-in account whose profile row was
    read without error; its email is the account's.  The first name is
    the full name up to its first space (so it holds no space) and the
    last name the rest: joined back with a space they give the full name;
    a full name without a space is all first name, with an empty last
    name. *)
Theorem profile_user_name authUser query u :
  fetchUserProfile authUser query = Some u ->
  exists a p, authUser = Some a /\ query a.(auth_id) = ProfileData (Some p) /\
    u.(email) = or_empty a.(auth_email) /\
    has_char " " u.(firstName) = false /\
    (if has_char " " (or_empty p.(full_name))
     then or_empty p.(full_name) = (u.(firstName) ++ " " ++ u.(lastName))%string
     else u.(firstName) = or_empty p.(full_name) /\ u.(lastName) = "").
Proof.
  unfold fetchUserProfile. intros H.
  destruct authUser as [a|]; [|discriminate].
  destruct (query (auth_id a)) as [|[p|]] eqn:Q; try discriminate.
  exists a, p. split; [reflexivity|]. split; [exact Q|].
  pose proof (join_split " "%char (or_empty (full_name p))) as J.
  destruct (split_on_head " "%char (or_empty (full_name p))) as (w & ws & E & Hw).
  rewrite E in H, J. injection H as <-. cbn [email firstName lastName tl].
  split; [reflexivity|]. split; [exact Hw|].
  destruct (has_char " " (or_empty (full_name p))) eqn:Hs.
  - destruct ws as [|w' ws']; cbn [join] in J.
    + rewrite J in Hw. congruence.
    + rewrite <- J. reflexivity.
  - rewrite (split_on_nochar _ _ Hs) in E. injection E as <- <-. split; reflexivity.
Qed.

Lemma profile_user_name_witness :
  exists u, fetchUserProfile (Some (mk_auth_user "u1" (Some "ada@example.com")))
      (fun _ => ProfileData (Some (mk_row (Some "Ada Lovelace King") None None None None None None
                                          None None None None))) = Some u /\
    u.(firstName) = "Ada" /\ u.(lastName) = "Lovelace King".
Proof.
  eexists. split; [reflexivity|].
  destruct (profile_user_name (Some (mk_auth_user "u1" (Some "ada@example.com")))
              (fun _ => ProfileData (Some (mk_row (Some "Ada Lovelace King") None None None None None None
                                                  None None None None))) _ eq_refl)
    as (a & p & _ & _ & _ & Hw & _).
  split; reflexivity.
Defined.

End ProfileExtra.

(* ------------------------------------------------------------------ *)
(** ** More proofs about AppContext *)

Module AppExtra.
Import App AppProofs.

Lemma persist_logged_out st : st.(isLoggedIn) = false -> persist st = st.(store).
Proof. intros H. unfold persist. rewrite H. reflexivity. Qed.

Lemma commit_logged_out x :
  x.(isLoggedIn) = false -> (commit x).(store) = x.(store) /\ (commit x).(isLoggedIn) = false.
Proof.
  intros Hx. split.
  - destruct (commit_store x) as [-> | ->]; [reflexivity | apply persist_logged_out, Hx].
  - destruct (commit_fields x) as (_ & _ & ->). exact Hx.
Qed.

Lemma auth_not_splash s : is_auth_screen s = false -> String.eqb scr_splash s = false.
Proof.
  intros H. destruct (String.eqb_spec scr_splash s) as [<-|]; [discriminate | reflexivity].
Qed.

(** X24: a reload restores the screen the app persisted: from the storage
    written while logged in on a screen outside the auth-only ones, a
    fresh mount with a valid session starts on that screen and writes it
    back. *)
Theorem app_reload_restores_screen st :
  st.(isLoggedIn) = true -> is_auth_screen st.(currentScreen) = false ->
  truthy st.(currentScreen) = true ->
  let st' := initializeAuth true (mount (persist st)) in
  st'.(currentScreen) = st.(currentScreen) /\ st'.(isLoggedIn) = true /\
  getItem key_screen st'.(store) = Some st.(currentScreen).
Proof.
  intros Hl Ha Ht st'. subst st'.
  assert (Hs : getItem key_screen (persist st) = Some (currentScreen st))
    by (rewrite persist_screen, Hl, Ha; reflexivity).
  unfold initializeAuth. rewrite login_commit. unfold restore. cbn [store].
  rewrite getItem_setItem, key_tab_screen, Hs, Ht, Ha. cbn [andb negb].
  rewrite getItem_setItem, String.eqb_refl. change (truthy "home") with true.
  unfold set_tab, set_screen. cbn [currentScreen activeTab isLoggedIn store lastDeps].
  unfold commit. cbn [lastDeps currentScreen activeTab isLoggedIn]. unfold deps_eqb.
  rewrite (auth_not_splash _ Ha). cbn [andb store currentScreen isLoggedIn].
  split; [reflexivity|]. split; [reflexivity|].
  rewrite persist_screen. cbn [isLoggedIn currentScreen]. rewrite Ha. reflexivity.
Qed.

Lemma app_reload_restores_screen_witness :
  (initializeAuth true (mount (persist (mk_app "history" "history" true [] None)))).(currentScreen)
  = "history".
Proof.
  exact (proj1 (app_reload_restores_screen (mk_app "history" "history" true [] None)
                  eq_refl eq_refl eq_refl)).
Defined.

(** X25: while logged out, moving between screens and tabs never touches
    localStorage nor logs the user in. *)
Theorem app_logged_out_no_writes st evs :
  st.(isLoggedIn) = false ->
  Forall (fun ev => match ev with SetCurrentScreen _ | SetActiveTab _ => True | _ => False end) evs ->
  (app_run st evs).(store) = st.(store) /\ (app_run st evs).(isLoggedIn) = false.
Proof.
  unfold app_run. revert st. induction evs as [|ev evs IH]; intros st Hl Hf; cbn [fold_left].
  - split; [reflexivity | exact Hl].
  - inversion Hf as [|? ? Hev Hevs]; subst.
    assert (Hs : (app_step st ev).(store) = st.(store) /\ (app_step st ev).(isLoggedIn) = false).
    { destruct ev as [| | | | s | t]; try contradiction; cbn [app_step];
        [apply (commit_logged_out (set_screen st s)) | apply (commit_logged_out (set_tab st t))];
        exact Hl. }
    destruct Hs as [Hs Hl']. destruct (IH _ Hl' Hevs) as [H1 H2].
    split; [rewrite H1; exact Hs | exact H2].
Qed.

Lemma app_logged_out_no_writes_witness :
  (app_run (mount [(key_screen, "history")]) [SetCurrentScreen "login"; SetCurrentScreen "signup";
                                              SetActiveTab "profile"]).(store)
  = [(key_screen, "history")].
Proof.
  refine (proj1 (app_logged_out_no_writes (mount [(key_screen, "history")]) _ eq_refl _)).
  repeat constructor.
Defined.

Lemma signed_in_first_commit st :
  st.(lastDeps) = Some (st.(currentScreen), st.(activeTab), false) ->
  st.(isLoggedIn) = false -> is_auth_screen st.(currentScreen) = true -> truthy st.(activeTab) = true ->
  commit (set_loggedIn st true)
  = mk_app st.(currentScreen) st.(activeTab) true (setItem key_tab st.(activeTab) st.(store))
           (Some (st.(currentScreen), st.(activeTab), true)).
Proof.
  destruct st as [cs tb li sto ld]. cbn [lastDeps currentScreen activeTab isLoggedIn store].
  intros -> -> Ha Ht. unfold commit, set_loggedIn. cbn [lastDeps currentScreen activeTab isLoggedIn].
  unfold deps_eqb. rewrite !String.eqb_refl. cbn [andb Bool.eqb].
  unfold persist. cbn [store isLoggedIn currentScreen activeTab]. rewrite Ha, Ht. reflexivity.
Qed.

(** X26: SIGNED_IN with a user, from a committed logged-out state on an
    auth-only screen with a non-empty tab: the app logs in on the saved
    screen if there is a usable one, keeping the tab it had (the commit of
    [setIsLoggedIn(true)] overwrites the saved tab first), and otherwise on
    home with the home tab; either way the tab it had is what is stored.
    SIGNED_IN without a user logs in without moving. *)
Theorem app_signed_in_restores st :
  st.(lastDeps) = Some (st.(currentScreen), st.(activeTab), false) ->
  st.(isLoggedIn) = false -> is_auth_screen st.(currentScreen) = true -> truthy st.(activeTab) = true ->
  let st' := app_step st (SignedIn true) in
  st'.(isLoggedIn) = true /\
  (forall v, getItem key_screen st.(store) = Some v -> truthy v = true -> is_auth_screen v = false ->
     st'.(currentScreen) = v /\ st'.(activeTab) = st.(activeTab)) /\
  ((forall v, getItem key_screen st.(store) = Some v -> truthy v = false \/ is_auth_screen v = true) ->
     st'.(currentScreen) = scr_home /\ st'.(activeTab) = "home") /\
  (app_step st (SignedIn false)).(currentScreen) = st.(currentScreen) /\
  (app_step st (SignedIn false)).(activeTab) = st.(activeTab) /\
  (app_step st (SignedIn false)).(isLoggedIn) = true.
Proof.
  intros Hd Hl Ha Ht st'. subst st'. cbn [app_step].
  rewrite (signed_in_first_commit st Hd Hl Ha Ht).
  destruct (commit_fields (restore true (mk_app (currentScreen st) (activeTab st) true
              (setItem key_tab (activeTab st) (store st)) (Some (currentScreen st, activeTab st, true)))))
    as (-> & -> & ->).
  unfold restore. cbn [store]. rewrite getItem_setItem, key_tab_screen.
  rewrite getItem_setItem, String.eqb_refl, Ht.
  split; [|split; [|split; [|split; [|split]]]]; try reflexivity.
  - destruct (getItem key_screen (store st)); [|reflexivity].
    destruct (truthy s && negb (is_auth_screen s)); reflexivity.
  - intros v Hv Hvt Hva. rewrite Hv, Hvt, Hva. split; reflexivity.
  - intros Hn. destruct (getItem key_screen (store st)) as [v|] eqn:Hv; [|split; reflexivity].
    destruct (Hn v eq_refl) as [H | H]; rewrite H; [|rewrite andb_false_r]; split; reflexivity.
Qed.

Lemma app_signed_in_restores_witness :
  (app_step (mount [(key_screen, "history"); (key_tab, "history")]) (SignedIn true)).(currentScreen)
  = "history" /\
  (app_step (mount [(key_screen, "history"); (key_tab, "history")]) (SignedIn true)).(activeTab)
  = "home".
Proof.
  destruct (app_signed_in_restores (mount [(key_screen, "history"); (key_tab, "history")])
              eq_refl eq_refl eq_refl eq_refl) as (_ & H & _).
  exact (H "history" eq_refl eq_refl eq_refl).
Defined.

End AppExtra.

(* ------------------------------------------------------------------ *)
(** ** Proofs about the second ScanningScreen (AddFamilyScreen.tsx) *)

Module Poll2Extra.
Import Poll2.

Lemma repeat_snoc {A} (x : A) n : repeat x n ++ [x] = repeat x (S n).
Proof. induction n as [|n IH]; cbn; [reflexivity | rewrite IH; reflexivity]. Qed.

(** The state between two rounds: one query in flight, nothing else
    pending. *)
Lemma poll2_round st n t r :
  st.(isMounted) = true -> st.(inFlight) = true -> st.(timeoutId) = None -> st.(navTimer) = None ->
  st.(log) = repeat Poll.Query n -> 0 <= st.(progress) <= 90 ->
  keeps_polling r = true ->
  exists st', exec st [Poll.Settle t r; Poll.FirePoll (t + 2000)] = Some st' /\
    st'.(isMounted) = true /\ st'.(inFlight) = true /\ st'.(timeoutId) = None /\
    st'.(navTimer) = None /\ st'.(log) = repeat Poll.Query (S n) /\ 0 <= st'.(progress) <= 90.
Proof.
  destruct st as [m p to fl nt c l]. cbn [isMounted inFlight timeoutId navTimer log progress].
  intros -> -> -> -> -> Hp Hk.
  assert (Hr : exists p', 0 <= p' <= 90 /\
             pollResume t r (mk_loop true p None true None c (repeat Poll.Query n))
             = mk_loop true p' (Some (t + 2000)) false None t (repeat Poll.Query n)).
  { destruct r as [[s|] msg | code]; cbn [keeps_polling] in Hk.
    - unfold pollResume. cbn [set_clock set_inFlight isMounted progress timeoutId inFlight navTimer
                               clock log negb].
      destruct (String.eqb (toLowerCase s) "processing").
      + exists (Z.min (p + 5) 90). split; [lia | reflexivity].
      + destruct (String.eqb (toLowerCase s) "completed"); [discriminate|].
        destruct (String.eqb (toLowerCase s) "failed"); [discriminate|].
        exists p. split; [exact Hp | reflexivity].
    - exists p. split; [exact Hp | reflexivity].
    - exists p. split; [exact Hp | reflexivity]. }
  destruct Hr as (p' & Hp' & Hr).
  eexists. cbn [exec step inFlight]. rewrite Hr. cbn [timeoutId].
  split; [reflexivity|]. cbn. rewrite repeat_snoc. repeat split; lia.
Qed.

(** X27: the copy of the scanning screen in AddFamilyScreen never gives up
    on its own: however long it runs, as long as every answer is an error,
    a missing status or a status other than completed/failed, each answer
    is followed 2000 ms later by exactly one new query, it never toasts
    nor navigates, and its progress stays between 0 and 90 (it has no
    time limit, unlike ScanningScreen.tsx). *)
Theorem poll2_never_gives_up t0 rs :
  forallb (fun tr => keeps_polling (snd tr)) rs = true ->
  exists st, exec (start t0)
                  (flat_map (fun tr => [Poll.Settle (fst tr) (snd tr); Poll.FirePoll (fst tr + 2000)]) rs)
             = Some st /\
    st.(log) = repeat Poll.Query (S (length rs)) /\ st.(isMounted) = true /\
    st.(inFlight) = true /\ st.(timeoutId) = None /\ st.(navTimer) = None /\ 0 <= st.(progress) <= 90.
Proof.
  intros Hk.
  assert (H : forall st n, st.(isMounted) = true -> st.(inFlight) = true -> st.(timeoutId) = None ->
            st.(navTimer) = None -> st.(log) = repeat Poll.Query n -> 0 <= st.(progress) <= 90 ->
            exists st', exec st (flat_map (fun tr => [Poll.Settle (fst tr) (snd tr);
                                                       Poll.FirePoll (fst tr + 2000)]) rs) = Some st' /\
              st'.(log) = repeat Poll.Query (n + length rs) /\ st'.(isMounted) = true /\
              st'.(inFlight) = true /\ st'.(timeoutId) = None /\ st'.(navTimer) = None /\
              0 <= st'.(progress) <= 90).
  { clear t0. induction rs as [|[t r] rs IH]; intros st n H1 H2 H3 H4 H5 H6.
    - exists st. cbn. rewrite Nat.add_0_r. repeat split; assumption || lia.
    - cbn [forallb snd] in Hk. apply andb_true_iff in Hk as [Hk1 Hk2].
      destruct (poll2_round st n t r H1 H2 H3 H4 H5 H6 Hk1)
        as (st1 & E1 & G1 & G2 & G3 & G4 & G5 & G6).
      destruct (IH Hk2 st1 (S n) G1 G2 G3 G4 G5 G6) as (st2 & E2 & R).
      exists st2. split.
      + cbn [flat_map fst snd app]. cbn [exec] in E1 |- *.
        destruct (step st (Poll.Settle t r)) as [s1|]; [|discriminate].
        destruct (step s1 (Poll.FirePoll (t + 2000))) as [s2|]; [|discriminate].
        injection E1 as <-. exact E2.
      + cbn [length]. rewrite <- Nat.add_succ_comm. exact R. }
  destruct (H (start t0) 1%nat eq_refl eq_refl eq_refl eq_refl eq_refl) as (st & E & R).
  - cbn. lia.
  - exists st. split; [exact E | exact R].
Qed.

Lemma poll2_never_gives_up_witness :
  exists st, exec (start 0)
      (flat_map (fun tr => [Poll.Settle (fst tr) (snd tr); Poll.FirePoll (fst tr + 2000)])
         [(500, Poll.Resolved (Some "processing") None); (3000, Poll.Rejected (Some 500));
          (5500, Poll.Resolved (Some "queued") None)]) = Some st /\
    st.(log) = [Poll.Query; Poll.Query; Poll.Query; Poll.Query].
Proof.
  destruct (poll2_never_gives_up 0 [(500, Poll.Resolved (Some "processing") None);
                                   (3000, Poll.Rejected (Some 500));
                                   (5500, Poll.Resolved (Some "queued") None)] eq_refl)
    as (st & E & L & _).
  exists st. split; [exact E | rewrite L; reflexivity].
Defined.

(** X28: a "completed" or "failed" answer ends this copy's loop: 500 ms
    later it navigates to the report result (progress 100) or, after a
    toast, to scan-error, leaving nothing pending.  The toast is always
    the fixed 'Report processing failed' text: the server's error message
    is never shown. *)
Theorem poll2_terminal st t t' s msg :
  st.(isMounted) = true -> st.(inFlight) = true -> st.(timeoutId) = None ->
  (toLowerCase s = "completed" ->
     exists st', exec st [Poll.Settle t (Poll.Resolved (Some s) msg); Poll.FireNav t'] = Some st' /\
       st'.(log) = st.(log) ++ [Poll.Navigate scr_report_result] /\ st'.(progress) = 100 /\
       st'.(inFlight) = false /\ st'.(timeoutId) = None /\ st'.(navTimer) = None) /\
  (toLowerCase s = "failed" ->
     exists st', exec st [Poll.Settle t (Poll.Resolved (Some s) msg); Poll.FireNav t'] = Some st' /\
       st'.(log) = st.(log) ++ [Poll.Toast Poll.msg_failed; Poll.Navigate scr_scan_error] /\
       st'.(inFlight) = false /\ st'.(timeoutId) = None /\ st'.(navTimer) = None).
Proof.
  destruct st as [m p to fl nt c l]. cbn [isMounted inFlight timeoutId].
  intros -> -> ->. split; intros Hs; eexists;
    (split; [cbn [exec step inFlight]; unfold pollResume;
             cbn [set_clock set_inFlight isMounted negb]; rewrite Hs; reflexivity|]);
    cbn; rewrite <- ?app_assoc; repeat split.
Qed.

Lemma poll2_terminal_witness :
  exists st', exec (start 0) [Poll.Settle 800 (Poll.Resolved (Some "FAILED") (Some "Unreadable scan"));
                              Poll.FireNav 1300] = Some st' /\
    st'.(log) = [Poll.Query; Poll.Toast Poll.msg_failed; Poll.Navigate scr_scan_error].
Proof.
  destruct (poll2_terminal (start 0) 800 1300 "FAILED" (Some "Unreadable scan") eq_refl eq_refl eq_refl)
    as [_ H].
  destruct (H eq_refl) as (st' & E & L & _). exists st'. split; [exact E | rewrite L; reflexivity].
Defined.

End Poll2Extra.
